(** * Selection synchronisation and drop handling of the Draft editor

    A shallow embedding of

    - [src/component/selection/setDraftEditorSelection.js]
    - [lib/DraftEditorDragHandler.js.flow]

    JavaScript statements become computations of a small state-and-exception
    monad.  The browser (selection object, ranges, active element) and the
    editor collaborators that live outside these two files are taken as
    parameters, so every general theorem holds for every host; a reference
    host is given at the end for the concrete runs. *)

From Stdlib Require Import String ZArith List Bool Lia DecimalString.
Import ListNotations.
Set Warnings "-register-all".
Local Open Scope string_scope.
Local Open Scope Z_scope.

(* ===================================================================== *)
(** ** JavaScript completions: a state monad that keeps the state on throw *)
(* ===================================================================== *)

Module Js.

Inductive JsError : Type :=
| TypeError            (* property access on null / undefined *)
| IndexSizeError       (* DOMException of Range.setStart, setEnd, Selection.extend *)
| InvalidStateError    (* DOMException of Selection.extend without a range *)
| NullThrows           (* fbjs nullthrows: "Got unexpected null or undefined" *)
| InvariantViolation   (* fbjs invariant *)
| HostError (msg : string).

Inductive Completion (A : Type) : Type :=
| Normal (a : A)
| Throw (e : JsError).
Arguments Normal {A} a.
Arguments Throw {A} e.

Definition isNormal {A} (c : Completion A) : bool :=
  match c with Normal _ => true | Throw _ => false end.

(** A statement run in world [W]: its completion and the world it leaves.
    A throw does not roll the world back. *)
Definition M (W A : Type) : Type := W -> Completion A * W.

Definition ret {W A} (a : A) : M W A := fun w => (Normal a, w).

Definition throw {W A} (e : JsError) : M W A := fun w => (Throw e, w).

Definition bind {W A B} (m : M W A) (k : A -> M W B) : M W B :=
  fun w =>
    match m w with
    | (Normal a, w1) => k a w1
    | (Throw e, w1) => (Throw e, w1)
    end.

(** Lifting of a pure completion (an expression that may throw). *)
Definition lift {W A} (c : Completion A) : M W A := fun w => (c, w).

(** fbjs [nullthrows(x)]: returns [x] unless it is null or undefined. *)
Definition nullthrows {A} (x : option A) : Completion A :=
  match x with
  | Some a => Normal a
  | None => Throw NullThrows
  end.

(** fbjs [invariant(cond, msg)]. *)
Definition invariant (cond : bool) : Completion unit :=
  if cond then Normal tt else Throw InvariantViolation.

Definition cbind {A B} (c : Completion A) (k : A -> Completion B) : Completion B :=
  match c with
  | Normal a => k a
  | Throw e => Throw e
  end.

End Js.

Import Js.

Declare Scope js_scope.
Delimit Scope js_scope with js.
Notation "x <- c1 ;; c2" := (bind c1 (fun x => c2))
  (at level 61, c1 at next level, right associativity) : js_scope.
Notation "c1 ;; c2" := (bind c1 (fun _ => c2))
  (at level 61, right associativity) : js_scope.
Local Open Scope js_scope.

(* ===================================================================== *)
(** ** DOM nodes *)
(* ===================================================================== *)

Module Dom.

(** A rendered subtree.  [nodeId] stands for object identity ([===]). *)
Inductive Tree : Type :=
| TextNode (nodeId : nat) (data : string)
    (* nodeType = TEXT_NODE, nodeValue = textContent = data *)
| Element (nodeId : nat) (tagName : string) (attributes : list string)
          (children : list Tree)
    (* instanceof Element, nodeValue = null *)
| Fragment (nodeId : nat) (children : list Tree)
    (* document, shadow root: nodeValue = null, not an Element *)
| CharData (nodeId : nat) (data : string).
    (* comment and the like: nodeValue = data, not a text node *)

Definition nodeId (t : Tree) : nat :=
  match t with
  | TextNode i _ | Element i _ _ _ | Fragment i _ | CharData i _ => i
  end.

Definition isTextNode (t : Tree) : bool :=
  match t with TextNode _ _ => true | _ => false end.

Definition isElement (t : Tree) : bool :=
  match t with Element _ _ _ _ => true | _ => false end.

Definition nodeValue (t : Tree) : option string :=
  match t with
  | TextNode _ d | CharData _ d => Some d
  | Element _ _ _ _ | Fragment _ _ => None
  end.

Definition childNodes (t : Tree) : list Tree :=
  match t with
  | Element _ _ _ c | Fragment _ c => c
  | TextNode _ _ | CharData _ _ => []
  end.

Definition hasAttribute (t : Tree) (name : string) : bool :=
  match t with
  | Element _ _ attrs _ => existsb (String.eqb name) attrs
  | _ => false
  end.

(** A node as the program holds it: the subtree together with the chain of
    its ancestors, nearest first ([parentNode] pops the chain). *)
Record Node : Type := mkNode { self : Tree; ancestors : list Tree }.

Definition parentNode (n : Node) : option Node :=
  match ancestors n with
  | [] => None
  | p :: ps => Some (mkNode p ps)
  end.

Definition sameNode (a b : Tree) : bool := Nat.eqb (nodeId a) (nodeId b).

(** fbjs [containsNode(outerNode, innerNode)]: false when either is null,
    otherwise whether [outerNode] is [innerNode] or one of its ancestors
    (a text node contains nothing but itself). *)
Definition containsNode (outerNode innerNode : option Node) : bool :=
  match outerNode, innerNode with
  | Some o, Some i =>
      if sameNode (self o) (self i) then true
      else if isTextNode (self o) then false
      else existsb (sameNode (self o)) (ancestors i)
  | _, _ => false
  end.

Definition string_of_nat (n : nat) : string :=
  NilEmpty.string_of_uint (Nat.to_uint n).

(** [getNodeLength(node)] *)
Definition getNodeLength (node : Tree) : nat :=
  match nodeValue node with
  | None => List.length (childNodes node)
  | Some v => String.length v
  end.

(** [anonymizeText(node)]: text is replaced by its length, elements are
    cloned (shallow [cloneNode()]) around their anonymized children.  The
    copies keep the id of the node they were made from; their identity is
    never tested. *)
Fixpoint anonymizeText (node : Tree) : Tree :=
  match node with
  | TextNode i d =>
      TextNode i ("[text " ++ string_of_nat (String.length d) ++ "]")
  | Element i tag attrs cs => Element i tag attrs (map anonymizeText cs)
  | Fragment i cs => Fragment i (map anonymizeText cs)
  | CharData i d => CharData i d
  end.

Section Serializer.
(** The host's HTML serializer behind [element.innerHTML]. *)
Variable innerHTML : Tree -> string.

(** [getAnonymizedDOM(node)] *)
Definition getAnonymizedDOM (node : option Tree) : Completion string :=
  match node with
  | None => Normal "[empty]"
  | Some n =>
      let anonymized := anonymizeText n in
      match anonymized with
      | TextNode _ textContent => Normal textContent
      | _ =>
          cbind (invariant (isElement anonymized))
                (fun _ => Normal (innerHTML anonymized))
      end
  end.

(** The [while (currentNode)] loop of [getAnonymizedEditorDOM]:
    [currentNode] and the chain still above it. *)
Fixpoint findEditorDOM (currentNode : Tree) (above : list Tree)
  : Completion string :=
  if isElement currentNode && hasAttribute currentNode "contenteditable"
  then getAnonymizedDOM (Some currentNode)
  else match above with
       | [] => Normal "Could not find contentEditable parent of node"
       | p :: ps => findEditorDOM p ps
       end.

(** [getAnonymizedEditorDOM(node)] *)
Definition getAnonymizedEditorDOM (node : Node) : Completion string :=
  findEditorDOM (self node) (ancestors node).

End Serializer.

End Dom.

Import Dom.

(* ===================================================================== *)
(** ** The host selection API *)
(* ===================================================================== *)

Module Host.

(** Ranges are host objects; the program holds references to them. *)
Definition RangeRef : Type := nat.

(** What the program asks of the browser.  [St] is the browser's state
    (document, ranges, the selection object of the editor's root). *)
Record Host (St : Type) : Type := mkHost {
  (** whether the selection object has an [extend] method *)
  extendSupported : bool;
  (** [window.editorShadowRoot] *)
  editorShadowRoot : St -> option Node;
  (** fbjs [getActiveElement()] *)
  getActiveElement : St -> option Node;
  (** [selection.focusNode], [selection.focusOffset] *)
  focusNode : St -> option Node;
  focusOffset : St -> Z;
  (** [selection.removeAllRanges()] *)
  removeAllRanges : St -> Completion unit * St;
  (** [document.createRange()] *)
  createRange : St -> Completion RangeRef * St;
  (** [range.setStart(node, offset)], [range.setEnd(node, offset)] *)
  setStart : RangeRef -> option Node -> Z -> St -> Completion unit * St;
  setEnd : RangeRef -> option Node -> Z -> St -> Completion unit * St;
  (** [selection.addRange(range)] *)
  addRange : RangeRef -> St -> Completion unit * St;
  (** [selection.getRangeAt(index)] *)
  getRangeAt : nat -> St -> Completion RangeRef * St;
  (** [range.cloneRange()] *)
  cloneRange : RangeRef -> St -> Completion RangeRef * St;
  (** [selection.extend(node, offset)] *)
  extend : option Node -> Z -> St -> Completion unit * St;
  (** the serializer behind [innerHTML] *)
  innerHTML : Tree -> string
}.
Arguments extendSupported {St} _.
Arguments editorShadowRoot {St} _ _.
Arguments getActiveElement {St} _ _.
Arguments focusNode {St} _ _.
Arguments focusOffset {St} _ _.
Arguments removeAllRanges {St} _ _.
Arguments createRange {St} _ _.
Arguments setStart {St} _ _ _ _ _.
Arguments setEnd {St} _ _ _ _ _.
Arguments addRange {St} _ _ _.
Arguments getRangeAt {St} _ _ _.
Arguments cloneRange {St} _ _ _.
Arguments extend {St} _ _ _ _.
Arguments innerHTML {St} _ _.

(** The calls made on the selection and on ranges, in the order made. *)
Inductive HostCall : Type :=
| CallRemoveAllRanges
| CallCreateRange
| CallSetStart (node : option Node) (offset : Z)
| CallAddRange
| CallExtend (node : option Node) (offset : Z)
| CallGetRangeAt (index : nat)
| CallSetEnd (node : option Node) (offset : Z)
| CallCloneRange.

End Host.

Import Host.

(* ===================================================================== *)
(** ** setDraftEditorSelection.js *)
(* ===================================================================== *)

Module Selection.

(** [SelectionState], read through its getters. *)
Record SelectionState : Type := mkSelectionState {
  getAnchorKey : string;
  getAnchorOffset : Z;
  getFocusKey : string;
  getFocusOffset : Z;
  getIsBackward : bool
}.

(** The argument of [DraftJsDebugLogging.logSelectionStateFailure]:
    [extraParams] is the JSON text of [{offset: offset}] and
    [selectionState] the JSON text of [selectionState.toJS()]; both are
    kept as the values they print. *)
Record LogEntry : Type := mkLogEntry {
  anonymizedDom : string;
  extraParams : Z;
  selectionState : SelectionState
}.

(** The world of a call: the browser, the diagnostics logged so far
    (latest last) and the host calls made so far (latest last). *)
Record World (St : Type) : Type := mkWorld {
  browser : St;
  logged : list LogEntry;
  calls : list HostCall
}.
Arguments mkWorld {St} _ _ _.
Arguments browser {St} _.
Arguments logged {St} _.
Arguments calls {St} _.

Section WithHost.
Context {St : Type} (H : Host St).

Local Abbreviation W := (World St).

(** Reading a property of the browser. *)
Definition readHost {A} (f : St -> A) : M W A :=
  fun w => (Normal (f (browser w)), w).

(** Making a host call: it is recorded, then it runs (and may throw). *)
Definition callHost {A} (c : HostCall) (op : St -> Completion A * St)
  : M W A :=
  fun w =>
    let '(r, s') := op (browser w) in
    (r, mkWorld s' (logged w) (calls w ++ [c])).

(** Modelled from the spec: [DraftJsDebugLogging.logSelectionStateFailure]
    is not part of the two files; the malformed offset is "logged with
    diagnostic context (anonymized content snapshot, the offending
    offset, and the logical selection)". *)
Definition logSelectionStateFailure (entry : LogEntry) : M W unit :=
  fun w => (Normal tt, mkWorld (browser w) (logged w ++ [entry]) (calls w)).

(** [global.editorShadowRoot.getSelection()]: the selection object is
    the one of the browser state; the call needs the root to exist. *)
Definition getSelection : M W unit :=
  root <- readHost (editorShadowRoot H) ;;
  match root with
  | None => throw TypeError
  | Some _ => ret tt
  end.

(** The logging block shared by both helpers:
    [if (offset > getNodeLength(node)) { logSelectionStateFailure(..) }];
    reading [nodeValue] of a null reference is a TypeError. *)
Definition logIfBeyond (node : option Node) (offset : Z)
           (selectionState : SelectionState) : M W unit :=
  match node with
  | None => throw TypeError
  | Some n =>
      if offset >? Z.of_nat (getNodeLength (self n)) then
        dom <- lift (getAnonymizedEditorDOM (innerHTML H) n) ;;
        logSelectionStateFailure (mkLogEntry dom offset selectionState)
      else ret tt
  end.

(** [addPointToSelection(selection, node, offset, selectionState)] *)
Definition addPointToSelection (node : Node) (offset : Z)
           (selectionState : SelectionState) : M W unit :=
  range <- callHost CallCreateRange (createRange H) ;;
  logIfBeyond (Some node) offset selectionState ;;
  callHost (CallSetStart (Some node) offset)
           (setStart H range (Some node) offset) ;;
  callHost CallAddRange (addRange H range).

(** [addFocusToSelection(selection, node, offset, selectionState)] *)
Definition addFocusToSelection (node : option Node) (offset : Z)
           (selectionState : SelectionState) : M W unit :=
  active <- readHost (getActiveElement H) ;;
  if extendSupported H && containsNode active node then
    logIfBeyond node offset selectionState ;;
    callHost (CallExtend node offset) (extend H node offset)
  else
    range <- callHost (CallGetRangeAt 0) (getRangeAt H 0%nat) ;;
    callHost (CallSetEnd node offset) (setEnd H range node offset) ;;
    clone <- callHost CallCloneRange (cloneRange H range) ;;
    callHost CallAddRange (addRange H clone).

(** The key/offset pairs and direction after the
    "IE doesn't support backward selection" swap. *)
Definition swapped (selectionState : SelectionState)
  : string * Z * string * Z * bool :=
  let anchorKey := getAnchorKey selectionState in
  let anchorOffset := getAnchorOffset selectionState in
  let focusKey := getFocusKey selectionState in
  let focusOffset := getFocusOffset selectionState in
  let isBackward := getIsBackward selectionState in
  if negb (extendSupported H) && isBackward
  then (focusKey, focusOffset, anchorKey, anchorOffset, false)
  else (anchorKey, anchorOffset, focusKey, focusOffset, isBackward).

(** [hasAnchor] / [hasFocus]: the endpoint lies in this node. *)
Definition within (key : string) (offset : Z) (blockKey : string)
           (nodeStart nodeEnd : Z) : bool :=
  String.eqb key blockKey && (nodeStart <=? offset) && (nodeEnd >=? offset).

(** [setDraftEditorSelection(selectionState, node, blockKey, nodeStart,
    nodeEnd)] *)
Definition setDraftEditorSelection (selectionState : SelectionState)
           (node : Node) (blockKey : string) (nodeStart nodeEnd : Z)
  : M W unit :=
  root <- readHost (editorShadowRoot H) ;;
  if negb (containsNode root (Some node)) then ret tt
  else
    getSelection ;;
    let '(anchorKey, anchorOffset, focusKey, focusOffset, isBackward) :=
      swapped selectionState in
    let hasAnchor := within anchorKey anchorOffset blockKey nodeStart nodeEnd in
    let hasFocus := within focusKey focusOffset blockKey nodeStart nodeEnd in
    if hasAnchor && hasFocus then
      callHost CallRemoveAllRanges (removeAllRanges H) ;;
      addPointToSelection node (anchorOffset - nodeStart) selectionState ;;
      addFocusToSelection (Some node) (focusOffset - nodeStart) selectionState
    else if negb isBackward then
      (if hasAnchor then
         callHost CallRemoveAllRanges (removeAllRanges H) ;;
         addPointToSelection node (anchorOffset - nodeStart) selectionState
       else ret tt) ;;
      (if hasFocus then
         addFocusToSelection (Some node) (focusOffset - nodeStart)
                             selectionState
       else ret tt)
    else
      (if hasFocus then
         callHost CallRemoveAllRanges (removeAllRanges H) ;;
         addPointToSelection node (focusOffset - nodeStart) selectionState
       else ret tt) ;;
      (if hasAnchor then
         storedFocusNode <- readHost (focusNode H) ;;
         storedFocusOffset <- readHost (Host.focusOffset H) ;;
         callHost CallRemoveAllRanges (removeAllRanges H) ;;
         addPointToSelection node (anchorOffset - nodeStart) selectionState ;;
         addFocusToSelection storedFocusNode storedFocusOffset selectionState
       else ret tt).

(** *** What a run shows of itself *)

(** The calls of [addPointToSelection] and of the two ways of
    [addFocusToSelection]. *)
Definition pointCalls (node : Node) (offset : Z) : list HostCall :=
  [CallCreateRange; CallSetStart (Some node) offset; CallAddRange].

Definition focusCalls (viaExtend : bool) (node : option Node) (offset : Z)
  : list HostCall :=
  if viaExtend then [CallExtend node offset]
  else [CallGetRangeAt 0; CallSetEnd node offset; CallCloneRange;
        CallAddRange].

(** The test of [addFocusToSelection], in world [w]. *)
Definition usesExtend (w : W) (node : option Node) : bool :=
  extendSupported H && containsNode (getActiveElement H (browser w)) node.

(** [m], run in [w], makes the host calls [t] in this order: all of them
    when it completes, and the ones up to the call that threw when it
    does not. *)
Definition issues {A} (m : M W A) (w : W) (t : list HostCall) : Prop :=
  (exists k, calls (snd (m w)) = (calls w ++ firstn k t)%list) /\
  (isNormal (fst (m w)) = true -> calls (snd (m w)) = (calls w ++ t)%list).

(** A diagnostic without the selection it quotes. *)
Definition diagnostics (w : W) : list (string * Z) :=
  map (fun e => (anonymizedDom e, extraParams e)) (logged w).

(** Two worlds that differ at most in the selections quoted in the log. *)
Definition agree (w1 w2 : W) : Prop :=
  browser w1 = browser w2 /\ calls w1 = calls w2 /\
  diagnostics w1 = diagnostics w2.

(** Two statements that cannot be told apart in agreeing worlds. *)
Definition alike {A} (m1 m2 : M W A) : Prop :=
  forall w1 w2, agree w1 w2 ->
    fst (m1 w1) = fst (m2 w2) /\ agree (snd (m1 w1)) (snd (m2 w2)).

(** [m] only adds to the log and to the calls made. *)
Definition grows {A} (m : M W A) : Prop :=
  forall w, exists l c,
    logged (snd (m w)) = (logged w ++ l)%list /\
    calls (snd (m w)) = (calls w ++ c)%list.

End WithHost.

(** The forward selection with the two ends of [s] exchanged. *)
Definition forwardSwapped (s : SelectionState) : SelectionState :=
  mkSelectionState (getFocusKey s) (getFocusOffset s)
                   (getAnchorKey s) (getAnchorOffset s) false.

End Selection.

Import Selection.

(* ===================================================================== *)
(** ** DraftEditorDragHandler.js *)
(* ===================================================================== *)

Module DragHandler.

(** The content model, the editor state and the helper modules the handler
    requires ([DraftModifier], [EditorState], [getUpdatedSelectionState],
    [isEventHandled]) and the rendering layer's tagging of nodes. *)
Record Collaborators : Type := mkCollaborators {
  ContentState : Type;
  EditorState : Type;
  InlineStyle : Type;
  File : Type;
  HookValue : Type;
  (** [editorState.getCurrentContent()], [.getSelection()],
      [.getCurrentInlineStyle()] *)
  getCurrentContent : EditorState -> ContentState;
  getSelection : EditorState -> SelectionState;
  getCurrentInlineStyle : EditorState -> InlineStyle;
  (** [EditorState.push(editorState, contentState, changeType)] *)
  push : EditorState -> ContentState -> string -> EditorState;
  (** [DraftModifier.moveText(content, removalRange, targetRange)] *)
  moveTextOf : ContentState -> SelectionState -> SelectionState -> ContentState;
  (** [DraftModifier.insertText(content, targetRange, text, inlineStyle)] *)
  insertText : ContentState -> SelectionState -> string -> InlineStyle
               -> ContentState;
  (** [getUpdatedSelectionState(editorState, anchorKey, anchorOffset,
      focusKey, focusOffset)] *)
  getUpdatedSelectionState :
    EditorState -> string -> Z -> string -> Z
    -> Completion (option SelectionState);
  (** [isEventHandled(value)] *)
  isEventHandled : HookValue -> bool;
  (** the offset key the rendering layer attached to a node, if any *)
  offsetKeyOf : Tree -> option string;
  (** [document.caretRangeFromPoint], when the browser has it: the start
      container and start offset of the range it returns, or null *)
  caretRangeFromPoint : option (Z -> Z -> option (Node * Z))
}.

(** fbjs [DataTransfer] wrapped around [nativeEvent.dataTransfer]. *)
Record DataTransfer (File : Type) : Type := mkDataTransfer {
  getFiles : list File;
  getText : string
}.
Arguments mkDataTransfer {File} _ _.
Arguments getFiles {File} _.
Arguments getText {File} _.

(** The native drop event. *)
Record NativeEvent (File : Type) : Type := mkNativeEvent {
  x : Z;
  y : Z;
  rangeParent : option Node;
  rangeOffset : option Z;
  dataTransfer : DataTransfer File
}.
Arguments mkNativeEvent {File} _ _ _ _ _.
Arguments x {File} _.
Arguments y {File} _.
Arguments rangeParent {File} _.
Arguments rangeOffset {File} _.
Arguments dataTransfer {File} _.

Section WithCollaborators.
Variable C : Collaborators.

Local Abbreviation ES := (EditorState C).
Local Abbreviation F := (File C).

(** What the handler does to the editor and to the event, in order.
    [ExtractText] is the pending [getTextContentFromFiles(files,
    callback)]: the callback is the closure over [editorState] and
    [dropSelection], kept as the two values it captured. *)
Inductive Effect : Type :=
| PreventDefault
| ExitCurrentMode
| Update (editorState : ES)
| ExtractText (files : list F) (editorState : ES)
              (dropSelection : SelectionState).

(** The editor instance: its fields read by the handler, its props, and
    the effects performed on it so far (latest last). *)
Record Editor : Type := mkEditor {
  _latestEditorState : ES;
  _internalDrag : bool;
  handleDroppedFiles : option (SelectionState -> list F -> HookValue C);
  handleDrop :
    option (SelectionState -> DataTransfer F -> string -> HookValue C);
  effects : list Effect
}.

Definition readEditor {A} (f : Editor -> A) : M Editor A :=
  fun ed => (Normal (f ed), ed).

Definition perform (e : Effect) : M Editor unit :=
  fun ed =>
    (Normal tt,
     mkEditor (_latestEditorState ed) (_internalDrag ed)
              (handleDroppedFiles ed) (handleDrop ed) (effects ed ++ [e])).

(** [e.preventDefault()] *)
Definition preventDefault : M Editor unit := perform PreventDefault.

(** [editor.exitCurrentMode()] *)
Definition exitCurrentMode : M Editor unit := perform ExitCurrentMode.

(** Modelled from the spec: [editor.update(editorState)] belongs to the
    editor component, which is not part of the two files; "side effect:
    editor state replaced".  The call is recorded and the editor's
    latest state becomes [editorState]. *)
Definition update (editorState : ES) : M Editor unit :=
  fun ed =>
    (Normal tt,
     mkEditor editorState (_internalDrag ed)
              (handleDroppedFiles ed) (handleDrop ed)
              (effects ed ++ [Update editorState])).

(** Modelled from the spec: [findAncestorOffsetKey(node)] is not part of
    the two files; it "walks upward from the node to find the nearest
    ancestor tagged with a logical offset key", null when there is none. *)
Fixpoint findOffsetKeyFrom (searchNode : Tree) (above : list Tree)
  : option string :=
  match offsetKeyOf C searchNode with
  | Some key => Some key
  | None =>
      match above with
      | [] => None
      | p :: ps => findOffsetKeyFrom p ps
      end
  end.

Definition findAncestorOffsetKey (node : Node) : option string :=
  findOffsetKeyFrom (self node) (ancestors node).

(** The first statement of [getSelectionForEvent]: the node and offset
    under the event, from [caretRangeFromPoint] or from the event's
    [rangeParent] / [rangeOffset]; [Normal None] is the [return null]. *)
Definition dropPoint (event : NativeEvent F)
  : Completion (option (option Node * option Z)) :=
  match caretRangeFromPoint C with
  | Some caret =>
      match caret (x event) (y event) with
      | Some (startContainer, startOffset) =>
          Normal (Some (Some startContainer, Some startOffset))
      | None => Throw TypeError   (* dropRange.startContainer on null *)
      end
  | None =>
      match rangeParent event with
      | Some parent => Normal (Some (Some parent, rangeOffset event))
      | None => Normal None
      end
  end.

(** [getSelectionForEvent(event, editorState)] *)
Definition getSelectionForEvent (event : NativeEvent F) (editorState : ES)
  : Completion (option SelectionState) :=
  cbind (dropPoint event) (fun located =>
    match located with
    | None => Normal None
    | Some (node, offset) =>
        cbind (nullthrows node) (fun node =>
        cbind (nullthrows offset) (fun offset =>
        cbind (nullthrows (findAncestorOffsetKey node)) (fun offsetKey =>
          getUpdatedSelectionState C editorState offsetKey offset
                                   offsetKey offset)))
    end).

(** [moveText(editorState, targetSelection)] *)
Definition moveText (editorState : ES) (targetSelection : SelectionState)
  : ES :=
  let newContentState :=
    moveTextOf C (getCurrentContent C editorState)
               (getSelection C editorState) targetSelection in
  push C editorState newContentState "insert-fragment".

(** [insertTextAtSelection(editorState, selection, text)] *)
Definition insertTextAtSelection (editorState : ES)
           (selection : SelectionState) (text : string) : ES :=
  let newContentState :=
    insertText C (getCurrentContent C editorState) selection text
               (getCurrentInlineStyle C editorState) in
  push C editorState newContentState "insert-fragment".

(** The callback handed to [getTextContentFromFiles]:
    [fileText => { fileText && editor.update(insertTextAtSelection(
    editorState, dropSelection, fileText)); }] *)
Definition fileTextCallback (editorState : ES)
           (dropSelection : SelectionState) (fileText : string)
  : M Editor unit :=
  if String.eqb fileText "" then ret tt
  else update (insertTextAtSelection editorState dropSelection fileText).

(** Modelled from the spec: [getTextContentFromFiles(files, callback)] is
    not part of the two files; it is "a black-box async text producer":
    the call leaves the extraction pending and the callback runs later
    with the text. *)
Definition getTextContentFromFiles (files : list F) (editorState : ES)
           (dropSelection : SelectionState) : M Editor unit :=
  perform (ExtractText files editorState dropSelection).

(** [hook && isEventHandled(hook(args))] *)
Definition handledBy {A} (hook : option A) (call : A -> HookValue C)
  : bool :=
  match hook with
  | Some h => isEventHandled C (call h)
  | None => false
  end.

(** [DraftEditorDragHandler.onDragEnd(editor)] *)
Definition onDragEnd : M Editor unit := exitCurrentMode.

(** [DraftEditorDragHandler.onDrop(editor, e)], [e.nativeEvent] given. *)
Definition onDrop (nativeEvent : NativeEvent F) : M Editor unit :=
  let data := dataTransfer nativeEvent in
  editorState <- readEditor _latestEditorState ;;
  dropSelection <- lift (getSelectionForEvent nativeEvent editorState) ;;
  preventDefault ;;
  exitCurrentMode ;;
  match dropSelection with
  | None => ret tt
  | Some dropSelection =>
      let files := getFiles data in
      if (0 <? List.length files)%nat then
        hook <- readEditor handleDroppedFiles ;;
        if handledBy hook (fun h => h dropSelection files) then ret tt
        else getTextContentFromFiles files editorState dropSelection
      else
        internal <- readEditor _internalDrag ;;
        let dragType := if internal then "internal" else "external" in
        hook <- readEditor handleDrop ;;
        if handledBy hook (fun h => h dropSelection data dragType)
        then ret tt
        else if internal then update (moveText editorState dropSelection)
        else update (insertTextAtSelection editorState dropSelection
                                           (getText data))
  end.

End WithCollaborators.

Arguments PreventDefault {C}.
Arguments ExitCurrentMode {C}.
Arguments Update {C} _.
Arguments ExtractText {C} _ _ _.
Arguments _latestEditorState {C} _.
Arguments _internalDrag {C} _.
Arguments handleDroppedFiles {C} _.
Arguments handleDrop {C} _.
Arguments effects {C} _.
Arguments mkEditor {C} _ _ _ _ _.

End DragHandler.

Import DragHandler.

(* ===================================================================== *)
(** ** A reference browser and a small editor model for concrete runs *)
(* ===================================================================== *)

Module Reference.

(** A boundary point; [None] is the start of the document, where a fresh
    range sits. *)
Definition Point : Type := option (Node * Z).

Record RangeData : Type := mkRange { startPoint : Point; endPoint : Point }.

(** One selection with at most one range, as in the Selection API. *)
Record Browser : Type := mkBrowser {
  root : option Node;
  active : option Node;
  ranges : list RangeData;       (* the range objects, by reference *)
  selected : option RangeRef;    (* the range of the selection *)
  backward : bool                (* its direction *)
}.

(** Document order of boundary points, with ids given in document order. *)
Definition pointLe (a b : Node * Z) : bool :=
  let ia := nodeId (self (fst a)) in
  let ib := nodeId (self (fst b)) in
  (ia <? ib)%nat || ((ia =? ib)%nat && (snd a <=? snd b)).

Fixpoint replaceNth {A} (l : list A) (i : nat) (v : A) : list A :=
  match l, i with
  | [], _ => []
  | _ :: t, O => v :: t
  | h :: t, S j => h :: replaceNth t j v
  end.

Definition withRanges (b : Browser) (rs : list RangeData) : Browser :=
  mkBrowser (root b) (active b) rs (selected b) (backward b).

Definition withSelection (b : Browser) (rs : list RangeData)
           (sel : option RangeRef) (bw : bool) : Browser :=
  mkBrowser (root b) (active b) rs sel bw.

Definition inBounds (n : Node) (offset : Z) : bool :=
  (0 <=? offset) && (offset <=? Z.of_nat (getNodeLength (self n))).

Definition refCreateRange (b : Browser) : Completion RangeRef * Browser :=
  (Normal (List.length (ranges b)),
   withRanges b (ranges b ++ [mkRange None None])).

(** [range.setStart]: IndexSizeError beyond the node's length; the end
    follows the start when it would come before it. *)
Definition refSetStart (r : RangeRef) (node : option Node) (offset : Z)
           (b : Browser) : Completion unit * Browser :=
  match node, nth_error (ranges b) r with
  | None, _ => (Throw TypeError, b)
  | Some _, None => (Throw InvalidStateError, b)
  | Some n, Some rd =>
      if inBounds n offset then
        let e := match endPoint rd with
                 | Some e => if pointLe (n, offset) e then e else (n, offset)
                 | None => (n, offset)
                 end in
        (Normal tt,
         withRanges b (replaceNth (ranges b) r
                                  (mkRange (Some (n, offset)) (Some e))))
      else (Throw IndexSizeError, b)
  end.

(** [range.setEnd]: the start follows the end when it would come after. *)
Definition refSetEnd (r : RangeRef) (node : option Node) (offset : Z)
           (b : Browser) : Completion unit * Browser :=
  match node, nth_error (ranges b) r with
  | None, _ => (Throw TypeError, b)
  | Some _, None => (Throw InvalidStateError, b)
  | Some n, Some rd =>
      if inBounds n offset then
        let s := match startPoint rd with
                 | Some s => if pointLe s (n, offset) then Some s
                             else Some (n, offset)
                 | None => None
                 end in
        (Normal tt,
         withRanges b (replaceNth (ranges b) r
                                  (mkRange s (Some (n, offset)))))
      else (Throw IndexSizeError, b)
  end.

Definition refRemoveAllRanges (b : Browser) : Completion unit * Browser :=
  (Normal tt, withSelection b (ranges b) None false).

(** [selection.addRange]: ignored when the selection already has a range. *)
Definition refAddRange (r : RangeRef) (b : Browser)
  : Completion unit * Browser :=
  match selected b with
  | Some _ => (Normal tt, b)
  | None => (Normal tt, withSelection b (ranges b) (Some r) false)
  end.

Definition refGetRangeAt (index : nat) (b : Browser)
  : Completion RangeRef * Browser :=
  match index, selected b with
  | O, Some r => (Normal r, b)
  | _, _ => (Throw IndexSizeError, b)
  end.

Definition refCloneRange (r : RangeRef) (b : Browser)
  : Completion RangeRef * Browser :=
  match nth_error (ranges b) r with
  | Some rd => (Normal (List.length (ranges b)), withRanges b (ranges b ++ [rd]))
  | None => (Throw InvalidStateError, b)
  end.

Definition selectedRange (b : Browser) : option RangeData :=
  match selected b with
  | Some r => nth_error (ranges b) r
  | None => None
  end.

Definition anchorPoint (b : Browser) : Point :=
  match selectedRange b with
  | Some rd => if backward b then endPoint rd else startPoint rd
  | None => None
  end.

Definition focusPoint (b : Browser) : Point :=
  match selectedRange b with
  | Some rd => if backward b then startPoint rd else endPoint rd
  | None => None
  end.

(** [selection.extend]: keeps the anchor, moves the focus; the selection
    becomes backward when the focus comes before the anchor. *)
Definition refExtend (node : option Node) (offset : Z) (b : Browser)
  : Completion unit * Browser :=
  match selectedRange b, node with
  | None, _ => (Throw InvalidStateError, b)
  | Some _, None => (Throw TypeError, b)
  | Some _, Some n =>
      if inBounds n offset then
        let a := anchorPoint b in
        let forward := match a with
                       | Some p => pointLe p (n, offset)
                       | None => true
                       end in
        let rd := if forward then mkRange a (Some (n, offset))
                  else mkRange (Some (n, offset)) a in
        (Normal tt,
         withSelection b (ranges b ++ [rd])
                       (Some (List.length (ranges b))) (negb forward))
      else (Throw IndexSizeError, b)
  end.

Fixpoint outerHTML (t : Tree) : string :=
  match t with
  | TextNode _ d => d
  | Element _ tag attrs cs =>
      "<" ++ tag ++ String.concat "" (map (fun a => " " ++ a) attrs) ++ ">"
          ++ String.concat "" (map outerHTML cs) ++ "</" ++ tag ++ ">"
  | Fragment _ cs => String.concat "" (map outerHTML cs)
  | CharData _ d => "<!--" ++ d ++ "-->"
  end.

Definition refInnerHTML (t : Tree) : string :=
  String.concat "" (map outerHTML (childNodes t)).

(** The reference browser, with or without [selection.extend]. *)
Definition refHost (withExtend : bool) : Host Browser :=
  mkHost Browser withExtend root active
         (fun b => option_map fst (focusPoint b))
         (fun b => match focusPoint b with Some p => snd p | None => 0 end)
         refRemoveAllRanges refCreateRange refSetStart refSetEnd
         refAddRange refGetRangeAt refCloneRange refExtend refInnerHTML.

(** A rendered editor: root > div[contenteditable] > div (block "b1")
    > span > "hello world", and a second block "b2" > span > "bye". *)
Definition text1 : Tree := TextNode 5 "hello world".
Definition span1 : Tree := Element 4 "span" [] [text1].
Definition block1 : Tree := Element 3 "div" ["data-offset-key"] [span1].
Definition text2 : Tree := TextNode 8 "bye".
Definition span2 : Tree := Element 7 "span" [] [text2].
Definition block2 : Tree := Element 6 "div" ["data-offset-key"] [span2].
Definition editorDiv : Tree :=
  Element 2 "div" ["contenteditable"] [block1; block2].
Definition rootTree : Tree := Fragment 1 [editorDiv].

Definition rootNode : Node := mkNode rootTree [].
Definition editorNode : Node := mkNode editorDiv [rootTree].
Definition textNode1 : Node :=
  mkNode text1 [span1; block1; editorDiv; rootTree].
Definition textNode2 : Node :=
  mkNode text2 [span2; block2; editorDiv; rootTree].
(** The same text node after the editor was taken out of the document. *)
Definition detachedText : Node := mkNode text1 [span1; block1].
(** An input outside the editor that may hold the focus. *)
Definition otherInput : Node := mkNode (Element 9 "input" [] []) [].

Definition browser0 (activeElement : option Node) : Browser :=
  mkBrowser (Some rootNode) activeElement [] None false.

Definition world0 (activeElement : option Node) : World Browser :=
  mkWorld (browser0 activeElement) [] [].

(** A small editor model: one block of text per key. *)
Record ToyState : Type := mkToy {
  blocks : list (string * string);
  toySelection : SelectionState;
  lastChangeType : string;
  undoStack : list (list (string * string))
}.

Definition blockText (blocks : list (string * string)) (key : string)
  : string :=
  match find (fun kv => String.eqb (fst kv) key) blocks with
  | Some kv => snd kv
  | None => ""
  end.

Definition setBlock (blocks : list (string * string)) (key text : string)
  : list (string * string) :=
  map (fun kv => if String.eqb (fst kv) key then (key, text) else kv) blocks.

Definition lo (s : SelectionState) : nat :=
  Z.to_nat (Z.min (getAnchorOffset s) (getFocusOffset s)).
Definition hi (s : SelectionState) : nat :=
  Z.to_nat (Z.max (getAnchorOffset s) (getFocusOffset s)).

Definition toyInsert (blocks : list (string * string))
           (target : SelectionState) (text : string)
  : list (string * string) :=
  let key := getAnchorKey target in
  let old := blockText blocks key in
  setBlock blocks key
           (substring 0 (lo target) old ++ text
            ++ substring (hi target) (String.length old - hi target) old).

Definition toyMove (blocks : list (string * string))
           (source target : SelectionState) : list (string * string) :=
  let moved := substring (lo source) (hi source - lo source)
                         (blockText blocks (getAnchorKey source)) in
  toyInsert (toyInsert blocks source "") target moved.

Definition toyResolve (_ : ToyState) (anchorKey : string) (anchorOffset : Z)
           (focusKey : string) (focusOffset : Z)
  : Completion (option SelectionState) :=
  Normal (Some (mkSelectionState anchorKey anchorOffset focusKey focusOffset
                                 false)).

Definition toyOffsetKey (t : Tree) : option string :=
  match t with
  | Element 3 _ _ _ => Some "b1"
  | Element 6 _ _ _ => Some "b2"
  | _ => None
  end.

(** The editor model as the handler's collaborators; the browser locates
    every drop point at offset 3 of the first text node. *)
Definition toy (caret : option (Z -> Z -> option (Node * Z)))
  : Collaborators :=
  mkCollaborators
    (list (string * string)) ToyState unit string bool
    blocks toySelection (fun _ => tt)
    (fun es content changeType =>
       mkToy content (toySelection es) changeType (blocks es :: undoStack es))
    toyMove
    (fun content target text _ => toyInsert content target text)
    toyResolve
    (fun handled => handled)
    toyOffsetKey
    caret.

Definition caretAtText1 : option (Z -> Z -> option (Node * Z)) :=
  Some (fun _ _ => Some (textNode1, 3)).

(** A drop on the editor's own container, outside every block. *)
Definition caretAtContainer : option (Z -> Z -> option (Node * Z)) :=
  Some (fun _ _ => Some (editorNode, 0)).


(** The selections and events of the concrete runs. *)
Definition forwardSel : SelectionState :=
  mkSelectionState "b1" 2 "b1" 7 false.
Definition backwardSel : SelectionState :=
  mkSelectionState "b1" 7 "b1" 2 true.
(** backward across blocks: anchor in "b2", focus in "b1" *)
Definition acrossSel : SelectionState :=
  mkSelectionState "b2" 1 "b1" 2 true.
(** offset 15 in a text of length 11, the node said to span 0..20 *)
Definition beyondSel : SelectionState :=
  mkSelectionState "b1" 15 "b1" 15 false.

Definition textDrop {File} : NativeEvent File :=
  mkNativeEvent 10 20 None None (mkDataTransfer [] "abc").

Definition fileDrop : NativeEvent string :=
  mkNativeEvent 10 20 None None (mkDataTransfer ["notes.txt"] "").

Definition toyState0 : ToyState :=
  mkToy [("b1", "hello world"); ("b2", "bye")]
        (mkSelectionState "b1" 6 "b1" 11 false) "" [].

Definition toyEditor (C : Collaborators) (es : EditorState C)
           (internal : bool) : Editor C :=
  mkEditor es internal None None [].

End Reference.

Import Reference.

(* ===================================================================== *)
(** ** Further observations on trees, hosts and effects *)
(* ===================================================================== *)

Module Observe.

(** The data of the text nodes of a tree, in document order. *)
Fixpoint textsOf (t : Tree) : list string :=
  match t with
  | TextNode _ d => [d]
  | Element _ _ _ cs => flat_map textsOf cs
  | Fragment _ cs => flat_map textsOf cs
  | CharData _ _ => []
  end.

(** A tree with the data of its text nodes blanked: ids, tags, attributes,
    comments and the shape are what is left. *)
Fixpoint skeleton (t : Tree) : Tree :=
  match t with
  | TextNode i _ => TextNode i ""
  | Element i tag attrs cs => Element i tag attrs (map skeleton cs)
  | Fragment i cs => Fragment i (map skeleton cs)
  | CharData i d => CharData i d
  end.

(** What [anonymizeText] writes for a text. *)
Definition lengthTag (d : string) : string :=
  "[text " ++ string_of_nat (String.length d) ++ "]".

(** The test of the loop of [getAnonymizedEditorDOM]. *)
Definition isEditorContainer (t : Tree) : bool :=
  isElement t && hasAttribute t "contenteditable".

(** A host none of whose calls throws, in any state. *)
Definition neverThrows {St} (H : Host St) : Prop :=
  (forall s, isNormal (fst (removeAllRanges H s)) = true) /\
  (forall s, isNormal (fst (createRange H s)) = true) /\
  (forall r n o s, isNormal (fst (setStart H r n o s)) = true) /\
  (forall r n o s, isNormal (fst (setEnd H r n o s)) = true) /\
  (forall r s, isNormal (fst (addRange H r s)) = true) /\
  (forall i s, isNormal (fst (getRangeAt H i s)) = true) /\
  (forall r s, isNormal (fst (cloneRange H r s)) = true) /\
  (forall n o s, isNormal (fst (extend H n o s)) = true).

Definition isExtendCall (c : HostCall) : bool :=
  match c with CallExtend _ _ => true | _ => false end.

Definition isClearCall (c : HostCall) : bool :=
  match c with CallRemoveAllRanges => true | _ => false end.

(** [m] adds to the calls made only calls that pass [ok]. *)
Definition addsOnly {St A} (ok : HostCall -> bool) (m : M (World St) A)
  : Prop :=
  forall w, exists c,
    calls (snd (m w)) = (calls w ++ c)%list /\ forallb ok c = true.

(** The effects that change, or will change, the content of the editor. *)
Definition isMutation {C} (e : Effect C) : bool :=
  match e with
  | Update _ | ExtractText _ _ _ => true
  | PreventDefault | ExitCurrentMode => false
  end.

Definition mutations {C} (es : list (Effect C)) : nat :=
  List.length (filter isMutation es).

(** A host that accepts every call and keeps no state. *)
Definition quietHost (withExtend : bool) : Host unit :=
  mkHost unit withExtend
         (fun _ => Some rootNode) (fun _ => Some editorNode)
         (fun _ => None) (fun _ => 0)
         (fun s => (Normal tt, s)) (fun s => (Normal 0%nat, s))
         (fun _ _ _ s => (Normal tt, s)) (fun _ _ _ s => (Normal tt, s))
         (fun _ s => (Normal tt, s)) (fun _ s => (Normal 0%nat, s))
         (fun _ s => (Normal 0%nat, s)) (fun _ _ s => (Normal tt, s))
         refInnerHTML.

End Observe.

Import Observe.

Local Open Scope list_scope.

(* ===================================================================== *)
(** ** Facts about the monad and the serializer *)
(* ===================================================================== *)

Module JsFacts.

Lemma bind_normal {W A B} (m : M W A) (k : A -> M W B) w a w1 :
  m w = (Normal a, w1) -> bind m k w = k a w1.
Proof. intros E. unfold bind. rewrite E. reflexivity. Qed.

(** A [bind] completes normally only if its first part did. *)
Lemma bind_inv {W A B} (m : M W A) (k : A -> M W B) w b w2 :
  bind m k w = (Normal b, w2) ->
  exists a w1, m w = (Normal a, w1) /\ k a w1 = (Normal b, w2).
Proof.
  unfold bind. destruct (m w) as [[a | e] w1]; intros E.
  - exists a, w1. split; [reflexivity | exact E].
  - discriminate E.
Qed.

End JsFacts.

Module DomFacts.

(** On an element the [invariant] of [getAnonymizedDOM] holds. *)
Lemma getAnonymizedDOM_element innerHTML t :
  isElement t = true ->
  getAnonymizedDOM innerHTML (Some t) = Normal (innerHTML (anonymizeText t)).
Proof. destruct t; simpl; intros E; try discriminate E; reflexivity. Qed.

(** The walk to the editor container always yields a text. *)
Lemma findEditorDOM_normal innerHTML above :
  forall currentNode,
    exists dom, findEditorDOM innerHTML currentNode above = Normal dom.
Proof.
  induction above as [| p ps IH]; intros c; cbn [findEditorDOM];
    destruct (isElement c && hasAttribute c "contenteditable") eqn:E;
    try (apply andb_prop in E; destruct E as [E _];
         rewrite (getAnonymizedDOM_element _ _ E));
    eauto.
Qed.

Lemma getAnonymizedEditorDOM_normal innerHTML node :
  exists dom, getAnonymizedEditorDOM innerHTML node = Normal dom.
Proof. apply findEditorDOM_normal. Qed.

Lemma containsNode_some outer inner :
  containsNode outer inner = true -> exists o, outer = Some o.
Proof. destruct outer; simpl; [eauto | discriminate]. Qed.

End DomFacts.

(* ===================================================================== *)
(** ** setDraftEditorSelection: what it calls, logs and lets escape *)
(* ===================================================================== *)

Module SelectionFacts.
Import JsFacts DomFacts.

Section WithHost.
Context {St : Type} (H : Host St).
Local Abbreviation W := (World St).

Lemma bind_assoc {A B C} (m : M W A) (k : A -> M W B) (k' : B -> M W C) w :
  bind (bind m k) k' w = bind m (fun a => bind (k a) k') w.
Proof. unfold bind. destruct (m w) as [[a | e] w1]; reflexivity. Qed.

(** *** Calls made *)

Lemma issues_silent {A} (m : M W A) w :
  calls (snd (m w)) = calls w -> issues m w [].
Proof.
  intros E. split; [exists 0%nat | intros _];
    rewrite E; simpl; now rewrite app_nil_r.
Qed.

Lemma issues_callHost {A} c (op : St -> Completion A * St) w :
  issues (callHost c op) w [c].
Proof.
  unfold issues, callHost. destruct (op (browser w)) as [r s'].
  split; [exists 1%nat |]; reflexivity.
Qed.

Lemma issues_bind {A B} (m : M W A) (k : A -> M W B) w t1 t2 :
  issues m w t1 ->
  (forall a w1, m w = (Normal a, w1) -> issues (k a) w1 t2) ->
  issues (bind m k) w (t1 ++ t2).
Proof.
  intros [[k1 P1] F1] K. unfold issues, bind.
  destruct (m w) as [[a | e] w1] eqn:E; simpl in *.
  - specialize (F1 eq_refl).
    destruct (K a w1 eq_refl) as [[k2 P2] F2]. split.
    + exists (List.length t1 + k2)%nat.
      rewrite P2, F1, firstn_app_2, app_assoc. reflexivity.
    + intros N. rewrite (F2 N), F1, app_assoc. reflexivity.
  - split; [| intros N; discriminate N].
    exists (Nat.min k1 (List.length t1)).
    rewrite P1, firstn_app.
    replace (Nat.min k1 (List.length t1) - List.length t1)%nat with 0%nat by lia.
    simpl. rewrite app_nil_r. f_equal.
    destruct (Nat.le_ge_cases k1 (List.length t1)) as [L | L].
    + now rewrite Nat.min_l.
    + rewrite Nat.min_r by exact L.
      now rewrite !firstn_all2 by lia.
Qed.

Lemma logIfBeyond_calls node offset sel w :
  calls (snd (logIfBeyond H node offset sel w)) = calls w.
Proof.
  unfold logIfBeyond. destruct node as [n |]; [| reflexivity].
  destruct (offset >? _); [| reflexivity].
  unfold bind, lift.
  destruct (getAnonymizedEditorDOM (innerHTML H) n); reflexivity.
Qed.

Lemma issues_addPoint node offset sel w :
  issues (addPointToSelection H node offset sel) w (pointCalls node offset).
Proof.
  unfold addPointToSelection.
  change (pointCalls node offset)
    with ([CallCreateRange]
            ++ [] ++ [CallSetStart (Some node) offset] ++ [CallAddRange]).
  apply issues_bind; [apply issues_callHost | intros r w1 _].
  apply issues_bind;
    [apply issues_silent, logIfBeyond_calls | intros _ w2 _].
  apply issues_bind; [apply issues_callHost | intros _ w3 _].
  apply issues_callHost.
Qed.

Lemma addFocus_unfold node offset sel w :
  addFocusToSelection H node offset sel w =
  if usesExtend H w node then
    (logIfBeyond H node offset sel ;;
     callHost (CallExtend node offset) (extend H node offset)) w
  else
    (range <- callHost (CallGetRangeAt 0) (getRangeAt H 0%nat) ;;
     callHost (CallSetEnd node offset) (setEnd H range node offset) ;;
     clone <- callHost CallCloneRange (cloneRange H range) ;;
     callHost CallAddRange (addRange H clone)) w.
Proof.
  unfold addFocusToSelection, usesExtend.
  unfold bind at 1, readHost.
  destruct (extendSupported H && containsNode _ node); reflexivity.
Qed.

Lemma issues_addFocus node offset sel w :
  issues (addFocusToSelection H node offset sel) w
         (focusCalls (usesExtend H w node) node offset).
Proof.
  pose proof (addFocus_unfold node offset sel w) as E.
  unfold issues. rewrite E. clear E.
  destruct (usesExtend H w node); cbn [focusCalls].
  - change [CallExtend node offset] with ([] ++ [CallExtend node offset]).
    apply issues_bind;
      [apply issues_silent, logIfBeyond_calls | intros _ w1 _].
    apply issues_callHost.
  - change [CallGetRangeAt 0; CallSetEnd node offset; CallCloneRange;
            CallAddRange]
      with ([CallGetRangeAt 0] ++ [CallSetEnd node offset]
              ++ [CallCloneRange] ++ [CallAddRange]).
    apply issues_bind; [apply issues_callHost | intros r w1 _].
    apply issues_bind; [apply issues_callHost | intros _ w2 _].
    apply issues_bind; [apply issues_callHost | intros c w3 _].
    apply issues_callHost.
Qed.

(** *** The log and the calls only grow *)

Lemma grows_ret {A} (a : A) : grows (St := St) (ret a).
Proof. intros w. exists [], []. simpl. now rewrite !app_nil_r. Qed.

Lemma grows_bind {A B} (m : M W A) (k : A -> M W B) :
  grows m -> (forall a, grows (k a)) -> grows (bind m k).
Proof.
  intros G K w. unfold bind.
  destruct (G w) as (l1 & c1 & L1 & C1).
  destruct (m w) as [[a | e] w1]; simpl in *.
  - destruct (K a w1) as (l2 & c2 & L2 & C2).
    exists (l1 ++ l2), (c1 ++ c2).
    rewrite L2, C2, L1, C1, !app_assoc. split; reflexivity.
  - exists l1, c1. split; assumption.
Qed.

Lemma grows_callHost {A} c (op : St -> Completion A * St) :
  grows (callHost c op).
Proof.
  intros w. unfold callHost. destruct (op (browser w)) as [r s'].
  exists [], [c]. simpl. now rewrite app_nil_r.
Qed.

Lemma grows_logIfBeyond node offset sel :
  grows (logIfBeyond H node offset sel).
Proof.
  unfold logIfBeyond. destruct node as [n |].
  - destruct (offset >? _); [| apply grows_ret].
    apply grows_bind.
    + intros w. exists [], []. simpl. now rewrite !app_nil_r.
    + intros dom w. eexists [_], []. simpl. now rewrite app_nil_r.
  - intros w. exists [], []. simpl. now rewrite !app_nil_r.
Qed.

Lemma grows_addPoint node offset sel :
  grows (addPointToSelection H node offset sel).
Proof.
  unfold addPointToSelection.
  repeat (apply grows_bind; [| intros ?]);
    auto using grows_callHost, grows_logIfBeyond.
Qed.

Lemma grows_addFocus node offset sel :
  grows (addFocusToSelection H node offset sel).
Proof.
  unfold addFocusToSelection.
  apply grows_bind.
  - intros w. exists [], []. simpl. now rewrite !app_nil_r.
  - intros active. destruct (extendSupported H && _);
      repeat (apply grows_bind; [| intros ?]);
      auto using grows_callHost, grows_logIfBeyond.
Qed.


(** *** The guard and the three cases *)

Lemma detached_noop sel node bk ns ne (w : W) :
  containsNode (editorShadowRoot H (browser w)) (Some node) = false ->
  setDraftEditorSelection H sel node bk ns ne w = (Normal tt, w).
Proof.
  intros D. unfold setDraftEditorSelection.
  unfold bind at 1, readHost. rewrite D. reflexivity.
Qed.

(** Past the guard, with the pairs after the swap named. *)
Lemma attached_unfold sel node bk ns ne (w : W) aK aO fK fO bw :
  containsNode (editorShadowRoot H (browser w)) (Some node) = true ->
  swapped H sel = (aK, aO, fK, fO, bw) ->
  setDraftEditorSelection H sel node bk ns ne w =
  (if within aK aO bk ns ne && within fK fO bk ns ne then
     callHost CallRemoveAllRanges (removeAllRanges H) ;;
     addPointToSelection H node (aO - ns) sel ;;
     addFocusToSelection H (Some node) (fO - ns) sel
   else if negb bw then
     (if within aK aO bk ns ne then
        callHost CallRemoveAllRanges (removeAllRanges H) ;;
        addPointToSelection H node (aO - ns) sel
      else ret tt) ;;
     (if within fK fO bk ns ne then
        addFocusToSelection H (Some node) (fO - ns) sel
      else ret tt)
   else
     (if within fK fO bk ns ne then
        callHost CallRemoveAllRanges (removeAllRanges H) ;;
        addPointToSelection H node (fO - ns) sel
      else ret tt) ;;
     (if within aK aO bk ns ne then
        storedFocusNode <- readHost (focusNode H) ;;
        storedFocusOffset <- readHost (Host.focusOffset H) ;;
        callHost CallRemoveAllRanges (removeAllRanges H) ;;
        addPointToSelection H node (aO - ns) sel ;;
        addFocusToSelection H storedFocusNode storedFocusOffset sel
      else ret tt)) w.
Proof.
  intros A E. unfold setDraftEditorSelection.
  rewrite (bind_normal (readHost (editorShadowRoot H)) _ w
                       (editorShadowRoot H (browser w)) w) by reflexivity.
  rewrite A. cbn [negb].
  destruct (containsNode_some _ _ A) as [o Ro].
  assert (G : Selection.getSelection H w = (Normal tt, w)).
  { unfold Selection.getSelection, bind, readHost. rewrite Ro. reflexivity. }
  rewrite (bind_normal _ _ _ _ _ G), E. reflexivity.
Qed.

Lemma issues_ext {A} (m1 m2 : M W A) w t :
  m1 w = m2 w -> issues m2 w t -> issues m1 w t.
Proof. unfold issues. intros E. rewrite E. exact (fun x => x). Qed.

(** Clearing, starting at a point and applying a focus: the calls made,
    with the way the focus was applied decided where it is applied. *)
Lemma issues_restart node p fnode q sel (w : W) :
  exists viaExtend,
    (forall w1,
        (callHost CallRemoveAllRanges (removeAllRanges H) ;;
         addPointToSelection H node p sel) w = (Normal tt, w1) ->
        viaExtend = usesExtend H w1 fnode) /\
    (viaExtend = true -> extendSupported H = true) /\
    issues (callHost CallRemoveAllRanges (removeAllRanges H) ;;
            addPointToSelection H node p sel ;;
            addFocusToSelection H fnode q sel) w
           (CallRemoveAllRanges
              :: pointCalls node p ++ focusCalls viaExtend fnode q).
Proof.
  set (pre := callHost CallRemoveAllRanges (removeAllRanges H) ;;
              addPointToSelection H node p sel).
  assert (P : issues pre w (CallRemoveAllRanges :: pointCalls node p)).
  { change (CallRemoveAllRanges :: pointCalls node p)
      with ([CallRemoveAllRanges] ++ pointCalls node p).
    apply issues_bind; [apply issues_callHost | intros _ w1 _].
    apply issues_addPoint. }
  destruct (pre w) as [[[] | e] w1] eqn:E.
  - exists (usesExtend H w1 fnode). split; [| split].
    + intros w1' E'. congruence.
    + unfold usesExtend. intros U. apply andb_prop in U. apply U.
    + apply issues_ext
        with (m2 := pre ;; addFocusToSelection H fnode q sel).
      * symmetry. apply bind_assoc.
      * change (CallRemoveAllRanges :: pointCalls node p ++ ?t)
          with ((CallRemoveAllRanges :: pointCalls node p) ++ t).
        apply issues_bind; [exact P |].
        intros [] w1' E'. rewrite E in E'. injection E' as <-.
        apply issues_addFocus.
  - exists false. split; [| split].
    + intros w1' E'. congruence.
    + discriminate.
    + apply issues_ext
        with (m2 := pre ;; addFocusToSelection H fnode q sel).
      * symmetry. apply bind_assoc.
      * change (CallRemoveAllRanges :: pointCalls node p ++ ?t)
          with ((CallRemoveAllRanges :: pointCalls node p) ++ t).
        apply issues_bind; [exact P |].
        intros a w1' E'. rewrite E in E'. discriminate E'.
Qed.

(** C9: when, after the swap made for hosts without [extend], the node
    holds neither the anchor nor the focus, [setDraftEditorSelection]
    completes without a host call: the browser, the log and the list of
    calls are exactly as before. *)
Theorem no_endpoint_no_host_call sel node bk ns ne (w : W) aK aO fK fO bw :
  swapped H sel = (aK, aO, fK, fO, bw) ->
  within aK aO bk ns ne = false ->
  within fK fO bk ns ne = false ->
  setDraftEditorSelection H sel node bk ns ne w = (Normal tt, w).
Proof.
  intros E NA NF.
  destruct (containsNode (editorShadowRoot H (browser w)) (Some node))
    eqn:A.
  - rewrite (attached_unfold _ _ _ _ _ _ _ _ _ _ _ A E), NA, NF.
    destruct bw; reflexivity.
  - apply detached_noop. exact A.
Qed.

(** C7 (amended): for a node still attached under the editor root whose
    range holds both the anchor and the focus (the pairs taken after the
    swap made for hosts without [extend]), one call clears the
    selection, sets the start point at anchor - nodeStart and applies
    the focus at focus - nodeStart; the host calls are made in that
    order, up to the first one that throws. *)
Theorem both_endpoints_one_call sel node bk ns ne (w : W) aK aO fK fO bw :
  containsNode (editorShadowRoot H (browser w)) (Some node) = true ->
  swapped H sel = (aK, aO, fK, fO, bw) ->
  within aK aO bk ns ne = true ->
  within fK fO bk ns ne = true ->
  setDraftEditorSelection H sel node bk ns ne w =
    (callHost CallRemoveAllRanges (removeAllRanges H) ;;
     addPointToSelection H node (aO - ns) sel ;;
     addFocusToSelection H (Some node) (fO - ns) sel) w
  /\ exists viaExtend,
      (viaExtend = true -> extendSupported H = true) /\
      issues (setDraftEditorSelection H sel node bk ns ne) w
             (CallRemoveAllRanges
                :: pointCalls node (aO - ns)
                ++ focusCalls viaExtend (Some node) (fO - ns)).
Proof.
  intros A E HA HF.
  assert (Q := attached_unfold _ _ bk ns ne _ _ _ _ _ _ A E).
  rewrite HA, HF in Q. cbn [andb] in Q. split; [exact Q |].
  destruct (issues_restart node (aO - ns) (Some node) (fO - ns) sel w)
    as (v & _ & X & I).
  exists v. split; [exact X |]. eapply issues_ext; eassumption.
Qed.


Lemma in_firstn {A} (a : A) k l : In a (firstn k l) -> In a l.
Proof.
  intros I. rewrite <- (firstn_skipn k l). apply in_or_app. now left.
Qed.

(** The calls of [addFocusToSelection], by the test it makes: [extend]
    when the host has it and the active element contains the node, the
    range of the selection otherwise. *)
Lemma focus_calls_by_active_element node offset sel (w : W) :
  (usesExtend H w node = true <->
   extendSupported H = true /\
   containsNode (getActiveElement H (browser w)) node = true)
  /\ issues (addFocusToSelection H node offset sel) w
            (focusCalls (usesExtend H w node) node offset)
  /\ (usesExtend H w node = false ->
      addFocusToSelection H node offset sel w =
        (range <- callHost (CallGetRangeAt 0) (getRangeAt H 0%nat) ;;
         callHost (CallSetEnd node offset) (setEnd H range node offset) ;;
         clone <- callHost CallCloneRange (cloneRange H range) ;;
         callHost CallAddRange (addRange H clone)) w
      /\ forall n o,
          In (CallExtend n o)
             (calls (snd (addFocusToSelection H node offset sel w))) ->
          In (CallExtend n o) (calls w)).
Proof.
  split; [| split].
  - unfold usesExtend. apply andb_true_iff.
  - apply issues_addFocus.
  - intros U. split.
    + rewrite addFocus_unfold, U. reflexivity.
    + intros n o I.
      destruct (issues_addFocus node offset sel w) as [[k K] _].
      rewrite K, U in I. apply in_app_or in I.
      destruct I as [I | I]; [exact I |].
      apply in_firstn in I. simpl in I.
      repeat (destruct I as [I | I]; [discriminate I |]).
      contradiction.
Qed.

(** *** Runs that differ only in the selection quoted in the log *)

Lemma agree_refl (w : W) : agree w w.
Proof. repeat split. Qed.

Lemma alike_ret {A} (a : A) : alike (St := St) (ret a) (ret a).
Proof. intros w1 w2 G. split; [reflexivity | exact G]. Qed.

Lemma alike_bind {A B} (m1 m2 : M W A) (k1 k2 : A -> M W B) :
  alike m1 m2 -> (forall a, alike (k1 a) (k2 a)) ->
  alike (bind m1 k1) (bind m2 k2).
Proof.
  intros Sm Sk w1 w2 G. unfold bind.
  destruct (Sm w1 w2 G) as [R G'].
  destruct (m1 w1) as [[a1 | e1] u1], (m2 w2) as [[a2 | e2] u2];
    simpl in *; try discriminate R.
  - injection R as ->. apply Sk. exact G'.
  - injection R as ->. split; [reflexivity | exact G'].
Qed.

Lemma alike_callHost {A} c (op : St -> Completion A * St) :
  alike (callHost c op) (callHost c op).
Proof.
  intros w1 w2 (Gb & Gc & Gd). unfold callHost. rewrite Gb.
  destruct (op (browser w2)) as [r s']. simpl.
  repeat split; [now rewrite Gc | exact Gd].
Qed.

Lemma alike_readHost {A} (f : St -> A) : alike (readHost f) (readHost f).
Proof.
  intros w1 w2 G. unfold readHost. simpl. split; [| exact G].
  destruct G as (-> & _). reflexivity.
Qed.

Lemma alike_logIfBeyond node offset s1 s2 :
  alike (logIfBeyond H node offset s1) (logIfBeyond H node offset s2).
Proof.
  unfold logIfBeyond. destruct node as [n |].
  - destruct (offset >? _); [| apply alike_ret].
    apply alike_bind.
    + intros w1 w2 G. split; [reflexivity | exact G].
    + intros dom w1 w2 (Gb & Gc & Gd). simpl.
      repeat split; simpl; try assumption.
      unfold diagnostics in *. simpl. rewrite !map_app, Gd. reflexivity.
  - intros w1 w2 G. split; [reflexivity | exact G].
Qed.

Lemma alike_addPoint node offset s1 s2 :
  alike (addPointToSelection H node offset s1)
        (addPointToSelection H node offset s2).
Proof.
  unfold addPointToSelection.
  repeat (apply alike_bind; [| intros ?]);
    auto using alike_callHost, alike_logIfBeyond.
Qed.

Lemma alike_addFocus node offset s1 s2 :
  alike (addFocusToSelection H node offset s1)
        (addFocusToSelection H node offset s2).
Proof.
  unfold addFocusToSelection.
  apply alike_bind; [apply alike_readHost | intros active].
  destruct (extendSupported H && _);
    repeat (apply alike_bind; [| intros ?]);
    auto using alike_callHost, alike_logIfBeyond.
Qed.

Lemma alike_set s1 s2 node bk ns ne :
  swapped H s1 = swapped H s2 ->
  alike (setDraftEditorSelection H s1 node bk ns ne)
        (setDraftEditorSelection H s2 node bk ns ne).
Proof.
  intros E. unfold setDraftEditorSelection. rewrite E.
  destruct (swapped H s2) as [[[[aK aO] fK] fO] bw].
  apply alike_bind; [apply alike_readHost | intros root].
  destruct (negb _); [apply alike_ret |].
  apply alike_bind.
  { unfold Selection.getSelection.
    apply alike_bind; [apply alike_readHost | intros r].
    destruct r; [apply alike_ret |].
    intros w1 w2 G. split; [reflexivity | exact G]. }
  intros _.
  destruct (within aK aO bk ns ne), (within fK fO bk ns ne), bw;
    cbn [andb negb];
    repeat first
      [ apply alike_addPoint | apply alike_addFocus | apply alike_callHost
      | apply alike_readHost | apply alike_ret
      | apply alike_bind; [| intros ?] ].
Qed.

(** On a host whose selection has no [extend], the run on a backward
    selection and the run on the forward selection with anchor and focus
    exchanged cannot be told apart: same completion, same browser state,
    same host calls, same diagnostics up to the selection they quote. *)
Theorem backward_without_extend_is_forward_swapped
        sel node bk ns ne (w : W) :
  extendSupported H = false ->
  getIsBackward sel = true ->
  let b := setDraftEditorSelection H sel node bk ns ne w in
  let f := setDraftEditorSelection H (forwardSwapped sel) node bk ns ne w in
  fst b = fst f /\
  browser (snd b) = browser (snd f) /\
  calls (snd b) = calls (snd f) /\
  diagnostics (snd b) = diagnostics (snd f).
Proof.
  intros X B b f.
  assert (E : swapped H sel = swapped H (forwardSwapped sel)).
  { unfold swapped, forwardSwapped. simpl. rewrite X, B. reflexivity. }
  destruct (alike_set sel (forwardSwapped sel) node bk ns ne E w w
                      (agree_refl w)) as (R & Gb & Gc & Gd).
  repeat split; assumption.
Qed.

(** *** A start point beyond the node's length *)

(** With the anchor in the node, every case begins by clearing the
    ranges and adding the start point at anchor - nodeStart. *)
Lemma anchor_case_prefix sel node bk ns ne (w : W) aK aO fK fO bw :
  containsNode (editorShadowRoot H (browser w)) (Some node) = true ->
  swapped H sel = (aK, aO, fK, fO, bw) ->
  within aK aO bk ns ne = true ->
  exists rest : M W unit,
    grows rest /\
    setDraftEditorSelection H sel node bk ns ne w =
    (callHost CallRemoveAllRanges (removeAllRanges H) ;;
     addPointToSelection H node (aO - ns) sel ;;
     rest) w.
Proof.
  intros A E HA.
  assert (Q := attached_unfold _ _ bk ns ne _ _ _ _ _ _ A E).
  rewrite HA in Q. cbn [andb] in Q.
  destruct (within fK fO bk ns ne); [| destruct bw]; cbn [negb] in Q.
  - eexists. split; [apply grows_addFocus | exact Q].
  - exists (addFocusToSelection H (focusNode H (browser w))
                                (Host.focusOffset H (browser w)) sel).
    split; [apply grows_addFocus | exact Q].
  - exists (ret tt). split; [apply grows_ret |].
    rewrite Q. rewrite bind_assoc. reflexivity.
Qed.

(** The focus side of the same logging: on the [extend] path an offset
    beyond the node's length is logged and [selection.extend] is then
    called, whatever it does being the outcome. *)
Lemma focus_beyond_logged_then_extended n offset sel (w : W) :
  usesExtend H w (Some n) = true ->
  offset > Z.of_nat (getNodeLength (self n)) ->
  exists dom,
    getAnonymizedEditorDOM (innerHTML H) n = Normal dom /\
    addFocusToSelection H (Some n) offset sel w
    = (fst (extend H (Some n) offset (browser w)),
       mkWorld (snd (extend H (Some n) offset (browser w)))
               (logged w ++ [mkLogEntry dom offset sel])
               (calls w ++ [CallExtend (Some n) offset])).
Proof.
  intros U Beyond.
  destruct (getAnonymizedEditorDOM_normal (innerHTML H) n) as [dom D].
  exists dom. split; [exact D |].
  rewrite addFocus_unfold, U.
  assert (GT : (offset >? Z.of_nat (getNodeLength (self n))) = true)
    by (apply Z.gtb_lt; lia).
  unfold logIfBeyond, logSelectionStateFailure, bind, callHost, lift.
  rewrite GT, D. cbn [browser logged calls].
  destruct (extend H (Some n) offset (browser w)) as [[[] | e] s'];
    reflexivity.
Qed.

(** The range path of [addFocusToSelection] logs nothing, whatever the
    offset. *)
Lemma focus_fallback_logs_nothing node offset sel (w : W) :
  usesExtend H w node = false ->
  logged (snd (addFocusToSelection H node offset sel w)) = logged w.
Proof.
  intros U. rewrite addFocus_unfold, U. unfold bind, callHost.
  destruct (getRangeAt H 0%nat (browser w)) as [[r | e] s1];
    cbn [browser logged calls fst snd]; [| reflexivity].
  destruct (setEnd H r node offset s1) as [[[] | e] s2];
    cbn [browser logged calls fst snd]; [| reflexivity].
  destruct (cloneRange H r s2) as [[c | e] s3];
    cbn [browser logged calls fst snd]; [| reflexivity].
  destruct (addRange H c s3) as [[[] | e] s4]; reflexivity.
Qed.

(** The anchor as start point: when the node is attached and holds the
    anchor (after the swap made for hosts without [extend]) and
    anchor - nodeStart is beyond the node's length, the call, once the
    ranges are cleared and the range created, logs the diagnostic and then
    still calls [range.setStart(node, offset)]; what that call throws is
    the outcome. *)
Theorem malformed_anchor_logged_then_attempted
        sel node bk ns ne (w : W) aK aO fK fO bw s1 r s2 :
  containsNode (editorShadowRoot H (browser w)) (Some node) = true ->
  swapped H sel = (aK, aO, fK, fO, bw) ->
  within aK aO bk ns ne = true ->
  aO - ns > Z.of_nat (getNodeLength (self node)) ->
  removeAllRanges H (browser w) = (Normal tt, s1) ->
  createRange H s1 = (Normal r, s2) ->
  exists dom,
    getAnonymizedEditorDOM (innerHTML H) node = Normal dom /\
    let entry := mkLogEntry dom (aO - ns) sel in
    let attempted :=
      [CallRemoveAllRanges; CallCreateRange;
       CallSetStart (Some node) (aO - ns)] in
    let out := setDraftEditorSelection H sel node bk ns ne w in
    (exists l, logged (snd out) = logged w ++ entry :: l) /\
    (exists c, calls (snd out) = calls w ++ attempted ++ c) /\
    (forall e s3,
        setStart H r (Some node) (aO - ns) s2 = (Throw e, s3) ->
        out = (Throw e,
               mkWorld s3 (logged w ++ [entry]) (calls w ++ attempted))).
Proof.
  intros A E HA Beyond R1 R2.
  destruct (getAnonymizedEditorDOM_normal (innerHTML H) node) as [dom D].
  exists dom. split; [exact D |].
  destruct (anchor_case_prefix sel node bk ns ne w _ _ _ _ _ A E HA)
    as (rest & G & Q).
  cbv zeta. rewrite Q. clear Q.
  assert (GT : (aO - ns >? Z.of_nat (getNodeLength (self node))) = true)
    by (apply Z.gtb_lt; lia).
  unfold addPointToSelection, logIfBeyond, logSelectionStateFailure,
    bind, callHost, lift.
  cbn [browser logged calls]. rewrite R1. cbn [browser logged calls].
  rewrite R2, GT, D. cbn [browser logged calls].
  destruct (setStart H r (Some node) (aO - ns) s2) as [[[] | e] s3];
    cbn [browser logged calls fst snd].
  - destruct (addRange H r s3) as [[[] | e] s4];
      cbn [browser fst snd logged calls].
    + match goal with
      | |- context [rest ?wx] =>
          destruct (G wx) as (l & c & L & C);
          destruct (rest wx) as [[[] | e5] w5]
      end;
        cbn [fst snd logged calls] in *; rewrite L, C; repeat split;
        try (intros e' s3' X; discriminate X).
      * exists l. now rewrite <- app_assoc.
      * exists (CallAddRange :: c). now rewrite <- !app_assoc.
      * exists l. now rewrite <- app_assoc.
      * exists (CallAddRange :: c). now rewrite <- !app_assoc.
    + repeat split.
      * now exists [].
      * exists [CallAddRange]. now rewrite <- !app_assoc.
      * intros e' s3' X. discriminate X.
  - cbn [fst snd logged calls]. repeat split.
    + now exists [].
    + exists []. now rewrite <- !app_assoc.
    + intros e' s3' X. injection X as -> ->.
      now rewrite <- !app_assoc.
Qed.

End WithHost.
End SelectionFacts.

(* ===================================================================== *)
(** ** DraftEditorDragHandler: what a drop does to the editor *)
(* ===================================================================== *)

Module DragFacts.

Section WithCollaborators.
Variable C : Collaborators.

Local Abbreviation ES := (EditorState C).

(** The editor after the effects [es] were added to its record. *)
Local Abbreviation after ed es :=
  (mkEditor (_latestEditorState ed) (_internalDrag ed)
            (handleDroppedFiles ed) (handleDrop ed) (effects ed ++ es)).

Lemma onDrop_unresolved ev (ed : Editor C) :
  getSelectionForEvent C ev (_latestEditorState ed) = Normal None ->
  onDrop C ev ed = (Normal tt, after ed [PreventDefault; ExitCurrentMode]).
Proof.
  intros R. unfold onDrop, bind, readEditor, lift. rewrite R.
  cbn. rewrite <- app_assoc. reflexivity.
Qed.

Lemma onDrop_throws ev (ed : Editor C) e :
  getSelectionForEvent C ev (_latestEditorState ed) = Throw e ->
  onDrop C ev ed = (Throw e, ed).
Proof.
  intros R. unfold onDrop, bind, readEditor, lift. rewrite R. reflexivity.
Qed.

(** Whenever [getSelectionForEvent] returns, with a selection or with
    null, [onDrop] completes and has called [e.preventDefault()] and then
    [editor.exitCurrentMode()] before anything else it does to the editor. *)
Theorem drop_prevents_default_and_exits_mode
        ev (ed : Editor C) (resolved : option SelectionState) :
  getSelectionForEvent C ev (_latestEditorState ed) = Normal resolved ->
  fst (onDrop C ev ed) = Normal tt /\
  exists rest,
    effects (snd (onDrop C ev ed))
    = effects ed ++ PreventDefault :: ExitCurrentMode :: rest.
Proof.
  intros R. unfold onDrop, bind, readEditor, lift. rewrite R.
  destruct resolved as [dropSelection |]; cbn.
  - repeat match goal with
           | |- context [if ?b then _ else _] => destruct b; cbn
           end;
      (split; [reflexivity |]); eexists;
      rewrite <- !app_assoc; reflexivity.
  - split; [reflexivity |]. exists []. now rewrite <- app_assoc.
Qed.

(** The outcomes of [getSelectionForEvent] as the code has them, and what
    [onDrop] makes of each: null without [caretRangeFromPoint] and without
    [rangeParent]; the exception of [nullthrows] when no ancestor of the
    located node carries an offset key; the outcome of
    [getUpdatedSelectionState] when the key is found. *)
Theorem resolution_failure_outcomes ev (ed : Editor C) :
  let es := _latestEditorState ed in
  (caretRangeFromPoint C = None -> rangeParent ev = None ->
   getSelectionForEvent C ev es = Normal None)
  /\ (forall node offset,
         dropPoint C ev = Normal (Some (Some node, offset)) ->
         findAncestorOffsetKey C node = None ->
         getSelectionForEvent C ev es = Throw NullThrows)
  /\ (forall node offset key,
         dropPoint C ev = Normal (Some (Some node, Some offset)) ->
         findAncestorOffsetKey C node = Some key ->
         getSelectionForEvent C ev es
         = getUpdatedSelectionState C es key offset key offset)
  /\ (getSelectionForEvent C ev es = Normal None ->
      onDrop C ev ed
      = (Normal tt, after ed [PreventDefault; ExitCurrentMode]))
  /\ (forall e,
         getSelectionForEvent C ev es = Throw e ->
         onDrop C ev ed = (Throw e, ed)).
Proof.
  cbv zeta. repeat split.
  - intros NoApi NoParent. unfold getSelectionForEvent, dropPoint.
    rewrite NoApi, NoParent. reflexivity.
  - intros node offset P K. unfold getSelectionForEvent.
    rewrite P. cbn [cbind nullthrows].
    destruct offset; cbn [cbind nullthrows]; [rewrite K |]; reflexivity.
  - intros node offset key P K. unfold getSelectionForEvent.
    rewrite P. cbn [cbind nullthrows]. rewrite K. reflexivity.
  - apply onDrop_unresolved.
  - apply onDrop_throws.
Qed.

(** C4: a drop without files that no [handleDrop] hook handles (there is
    none, or the one there declines), on an editor that is the drag source,
    whose drop point resolved to [dropSelection], updates the editor
    exactly once, with the single push of [DraftModifier.moveText(
    currentContent, currentSelection, dropSelection)] under the change type
    "insert-fragment". *)
Theorem internal_drop_is_one_move ev (ed : Editor C) dropSelection :
  getFiles (dataTransfer ev) = [] ->
  handledBy C (handleDrop ed)
            (fun h => h dropSelection (dataTransfer ev) "internal"%string)
  = false ->
  _internalDrag ed = true ->
  getSelectionForEvent C ev (_latestEditorState ed)
  = Normal (Some dropSelection) ->
  let es := _latestEditorState ed in
  let moved :=
    push C es (moveTextOf C (getCurrentContent C es) (getSelection C es)
                          dropSelection)
         "insert-fragment" in
  onDrop C ev ed
  = (Normal tt,
     mkEditor moved true (handleDroppedFiles ed) (handleDrop ed)
              (effects ed ++ [PreventDefault; ExitCurrentMode;
                              Update moved])).
Proof.
  intros NoFiles NotHandled Internal R.
  unfold onDrop, bind, readEditor, lift, preventDefault, exitCurrentMode,
    update, perform.
  rewrite R, NoFiles.
  cbn [_latestEditorState _internalDrag handleDroppedFiles handleDrop
       effects ret List.length Nat.ltb Nat.leb].
  rewrite Internal, NotHandled.
  cbn [_latestEditorState _internalDrag handleDroppedFiles handleDrop
       effects].
  unfold moveText. rewrite <- !app_assoc. reflexivity.
Qed.
(** C5: a drop that carries files, is not handled by a
    [handleDroppedFiles] hook and whose drop point resolved to
    [dropSelection] updates nothing by itself: it leaves the text
    extraction pending, with a callback that captured the editor state
    of the drop.  Whenever the callback then runs, in whatever state the
    editor is by then, an empty text changes nothing and any other text
    updates the editor once, with the push of the text inserted at
    [dropSelection] into the captured state, under the change type
    "insert-fragment". *)
Theorem file_drop_inserts_into_captured_state
        ev (ed : Editor C) dropSelection :
  getFiles (dataTransfer ev) <> [] ->
  handledBy C (handleDroppedFiles ed)
            (fun h => h dropSelection (getFiles (dataTransfer ev)))
  = false ->
  getSelectionForEvent C ev (_latestEditorState ed)
  = Normal (Some dropSelection) ->
  let es := _latestEditorState ed in
  onDrop C ev ed
  = (Normal tt,
     after ed [PreventDefault; ExitCurrentMode;
               ExtractText (getFiles (dataTransfer ev)) es dropSelection])
  /\ (forall later : Editor C,
         fileTextCallback C es dropSelection "" later = (Normal tt, later))
  /\ (forall (later : Editor C) fileText,
         fileText <> "" ->
         let inserted :=
           push C es
                (insertText C (getCurrentContent C es) dropSelection
                            fileText (getCurrentInlineStyle C es))
                "insert-fragment" in
         fileTextCallback C es dropSelection fileText later
         = (Normal tt,
            mkEditor inserted (_internalDrag later)
                     (handleDroppedFiles later) (handleDrop later)
                     (effects later ++ [Update inserted]))).
Proof.
  intros Files NotHandled R. cbv zeta. repeat split.
  - unfold onDrop, bind, readEditor, lift. rewrite R. cbn.
    destruct (getFiles (dataTransfer ev)) as [| f fs] eqn:F;
      [contradiction |].
    cbn. rewrite NotHandled.
    unfold getTextContentFromFiles, perform. cbn.
    rewrite <- !app_assoc. reflexivity.
  - intros later fileText NonEmpty. unfold fileTextCallback.
    destruct (String.eqb_spec fileText ""); [contradiction | reflexivity].
Qed.

End WithCollaborators.

End DragFacts.

(* ===================================================================== *)
(** ** The reference browser: direction of the selection *)
(* ===================================================================== *)

Module ReferenceFacts.
Import JsFacts SelectionFacts.


(** On the reference browser the range fallback of [addFocusToSelection]
    never changes the direction of the selection. *)
Lemma fallback_keeps_direction withExtend node offset sel
      (w : World Browser) :
  usesExtend (refHost withExtend) w node = false ->
  backward (browser (snd (addFocusToSelection (refHost withExtend) node
                                              offset sel w)))
  = backward (browser w).
Proof.
  intros U. rewrite addFocus_unfold, U.
  unfold bind, callHost. cbn [getRangeAt setEnd cloneRange addRange refHost].
  unfold refGetRangeAt.
  destruct (selected (browser w)) as [r |] eqn:S; [| reflexivity].
  cbn [browser logged calls fst snd].
  unfold refSetEnd.
  destruct node as [n |]; [| reflexivity].
  destruct (nth_error (ranges (browser w)) r) as [rd |] eqn:N; [| reflexivity].
  destruct (inBounds n offset); [| reflexivity].
  cbn [browser logged calls fst snd].
  unfold refCloneRange. cbn [ranges withRanges].
  match goal with
  | |- context [nth_error ?l r] => destruct (nth_error l r)
  end; [| reflexivity].
  cbn [browser logged calls fst snd].
  unfold refAddRange. cbn [selected withRanges]. rewrite S. reflexivity.
Qed.

Lemma refSetStart_keeps r node offset b c b' :
  refSetStart r node offset b = (c, b') ->
  selected b' = selected b /\ backward b' = backward b.
Proof.
  unfold refSetStart.
  destruct node as [n |]; [| intros X; injection X as _ <-; now split].
  destruct (nth_error (ranges b) r);
    [| intros X; injection X as _ <-; now split].
  destruct (inBounds n offset); intros X; injection X as _ <-; now split.
Qed.

Lemma callHost_inv {St A} c (op : St -> Completion A * St) (w : World St)
      r w1 :
  callHost c op w = (r, w1) ->
  op (browser w) = (r, browser w1).
Proof.
  unfold callHost. destruct (op (browser w)) as [r' s'].
  intros X. injection X as -> <-. reflexivity.
Qed.

Lemma logIfBeyond_browser {St} (H : Host St) node offset sel (w : World St) :
  browser (snd (logIfBeyond H node offset sel w)) = browser w.
Proof.
  unfold logIfBeyond. destruct node as [n |]; [| reflexivity].
  destruct (offset >? _); [| reflexivity].
  unfold bind, lift.
  destruct (getAnonymizedEditorDOM (innerHTML H) n); reflexivity.
Qed.

(** A selection restarted by [addPointToSelection] on the reference browser
    is forward. *)
Lemma restart_is_forward withExtend node offset sel (w w1 : World Browser) :
  (callHost CallRemoveAllRanges refRemoveAllRanges ;;
   addPointToSelection (refHost withExtend) node offset sel) w
  = (Normal tt, w1) ->
  backward (browser w1) = false.
Proof.
  intros R.
  apply bind_inv in R. destruct R as ([] & wa & Ra & R).
  apply callHost_inv in Ra. unfold refRemoveAllRanges in Ra.
  injection Ra as Ba.
  unfold addPointToSelection in R.
  apply bind_inv in R. destruct R as (r & wb & Rb & R).
  apply callHost_inv in Rb. cbn [createRange refHost] in Rb.
  unfold refCreateRange in Rb. injection Rb as Er Bb.
  apply bind_inv in R. destruct R as ([] & wc & Rc & R).
  pose proof (logIfBeyond_browser (refHost withExtend) (Some node) offset
                                  sel wb) as Bc.
  rewrite Rc in Bc. cbn [snd] in Bc.
  apply bind_inv in R. destruct R as ([] & wd & Rd & R).
  apply callHost_inv in Rd. cbn [setStart refHost] in Rd.
  apply refSetStart_keeps in Rd. destruct Rd as (Sd & _).
  apply callHost_inv in R. cbn [addRange refHost] in R.
  unfold refAddRange in R.
  rewrite Sd, Bc, <- Bb, <- Ba in R. cbn [selected withRanges withSelection] in R.
  injection R as <-. reflexivity.
Qed.

(** C10: [addFocusToSelection] calls [selection.extend] only when the host
    has [extend] and the active element contains the target node.  In every
    other case, also on a host with [extend], it takes the first range of
    the selection, sets its end at the target point and adds a clone of it:
    [selection.extend] is not called, and on the reference browser the
    direction of the selection stays as it was, so no backward selection
    comes out of it. *)
Theorem focus_extends_only_under_active_element :
  (forall St (H : Host St) node offset sel (w : World St),
      (usesExtend H w node = true <->
       extendSupported H = true /\
       containsNode (getActiveElement H (browser w)) node = true)
      /\ issues (addFocusToSelection H node offset sel) w
                (focusCalls (usesExtend H w node) node offset)
      /\ (usesExtend H w node = false ->
          addFocusToSelection H node offset sel w =
            (range <- callHost (CallGetRangeAt 0) (getRangeAt H 0%nat) ;;
             callHost (CallSetEnd node offset) (setEnd H range node offset) ;;
             clone <- callHost CallCloneRange (cloneRange H range) ;;
             callHost CallAddRange (addRange H clone)) w
          /\ forall n o,
              In (CallExtend n o)
                 (calls (snd (addFocusToSelection H node offset sel w))) ->
              In (CallExtend n o) (calls w)))
  /\ (forall withExtend node offset sel (w : World Browser),
         usesExtend (refHost withExtend) w node = false ->
         backward (browser (snd (addFocusToSelection (refHost withExtend) node
                                                     offset sel w)))
         = backward (browser w)).
Proof.
  split.
  - intros St H node offset sel w.
    apply focus_calls_by_active_element.
  - apply fallback_keeps_direction.
Qed.

End ReferenceFacts.

(* ===================================================================== *)
(** ** Concrete runs on the reference browser and editor *)
(* ===================================================================== *)

Module Runs.
Import Reference SelectionFacts DragFacts ReferenceFacts.

(** The world in which the editor holds the focus. *)
Local Abbreviation W0 := (world0 (Some editorNode)).

(** The world after the focus end of [acrossSel] was applied to the first
    text node, with the active element [a]. *)
Local Abbreviation focusApplied a :=
  (snd (setDraftEditorSelection (refHost true) acrossSel textNode1 "b1"
                                0 11 (world0 a))).

(** C1, counterexample: on the reference browser, in a text of length 11,
    (1) an anchor at offset 15 is logged and [range.setStart] then throws
    IndexSizeError, which escapes [setDraftEditorSelection]; (2) without
    [extend], a focus at offset 15 is not logged at all and the
    IndexSizeError of [range.setEnd] escapes; (3) on a node no longer under
    the editor root the same offset is neither logged nor tried. *)
Lemma malformed_offset_escapes :
  (15 - 0 >? Z.of_nat (getNodeLength (self textNode1))) = true /\
  fst (setDraftEditorSelection (refHost true) beyondSel textNode1 "b1"
                               0 20 W0)
  = Throw IndexSizeError /\
  List.length
    (logged (snd (setDraftEditorSelection (refHost true) beyondSel textNode1
                                          "b1" 0 20 W0))) = 1%nat /\
  fst (setDraftEditorSelection (refHost false)
                               (mkSelectionState "b1" 2 "b1" 15 false)
                               textNode1 "b1" 0 20 W0)
  = Throw IndexSizeError /\
  logged (snd (setDraftEditorSelection (refHost false)
                                       (mkSelectionState "b1" 2 "b1" 15 false)
                                       textNode1 "b1" 0 20 W0)) = [] /\
  setDraftEditorSelection (refHost true) beyondSel detachedText "b1" 0 20 W0
  = (Normal tt, W0).
Proof. repeat split. Qed.

Lemma malformed_anchor_witness :
  exists dom,
    getAnonymizedEditorDOM refInnerHTML textNode1 = Normal dom /\
    setDraftEditorSelection (refHost true) beyondSel textNode1 "b1" 0 20 W0
    = (Throw IndexSizeError,
       mkWorld (mkBrowser (Some rootNode) (Some editorNode)
                          [mkRange None None] None false)
               [mkLogEntry dom 15 beyondSel]
               [CallRemoveAllRanges; CallCreateRange;
                CallSetStart (Some textNode1) 15]).
Proof.
  destruct (malformed_anchor_logged_then_attempted
              (refHost true) beyondSel textNode1 "b1" 0 20 W0
              "b1" 15 "b1" 15 false _ _ _
              eq_refl eq_refl eq_refl eq_refl eq_refl eq_refl)
    as (dom & D & _ & _ & T).
  exists dom. split; [exact D |].
  exact (T IndexSizeError _ eq_refl).
Defined.

(** The backward selection 7..2 on the browser without [extend]. *)
Lemma backward_without_extend_witness :
  fst (setDraftEditorSelection (refHost false) backwardSel textNode1 "b1"
                               0 11 W0)
  = fst (setDraftEditorSelection (refHost false)
                                 (forwardSwapped backwardSel) textNode1 "b1"
                                 0 11 W0) /\
  browser (snd (setDraftEditorSelection (refHost false) backwardSel
                                        textNode1 "b1" 0 11 W0))
  = browser (snd (setDraftEditorSelection (refHost false)
                                          (forwardSwapped backwardSel)
                                          textNode1 "b1" 0 11 W0)).
Proof.
  destruct (backward_without_extend_is_forward_swapped
              (refHost false) backwardSel textNode1 "b1" 0 11 W0
              eq_refl eq_refl) as (R & B & _).
  split; [exact R | exact B].
Defined.

(** C7, counterexample: with both ends in the node's range, (1) a node no
    longer under the editor root gets no host call at all, and (2) on the
    browser without [extend] the backward selection 7..2 has its start
    point set at the focus offset 2 and its end at the anchor offset 7. *)
Lemma both_endpoints_not_always_applied :
  within "b1" 2 "b1" 0 11 = true /\
  within "b1" 7 "b1" 0 11 = true /\
  setDraftEditorSelection (refHost true) forwardSel detachedText "b1" 0 11 W0
  = (Normal tt, W0) /\
  calls (snd (setDraftEditorSelection (refHost false) backwardSel textNode1
                                      "b1" 0 11 W0))
  = [CallRemoveAllRanges; CallCreateRange;
     CallSetStart (Some textNode1) 2; CallAddRange;
     CallGetRangeAt 0; CallSetEnd (Some textNode1) 7;
     CallCloneRange; CallAddRange].
Proof. repeat split. Qed.

Lemma both_endpoints_witness :
  issues (setDraftEditorSelection (refHost true) forwardSel textNode1 "b1"
                                  0 11) W0
         [CallRemoveAllRanges; CallCreateRange;
          CallSetStart (Some textNode1) 2; CallAddRange;
          CallExtend (Some textNode1) 7].
Proof.
  destruct (both_endpoints_one_call
              (refHost true) forwardSel textNode1 "b1" 0 11 W0
              "b1" 2 "b1" 7 false eq_refl eq_refl eq_refl eq_refl)
    as (_ & v & _ & I).
  destruct v.
  - exact I.
  - destruct I as [_ F]. specialize (F eq_refl). discriminate F.
Defined.



(** C9, witness: the forward selection inside "b1" seen from the text node
    of "b2". *)
Lemma no_endpoint_witness :
  setDraftEditorSelection (refHost true) forwardSel textNode2 "b2" 0 3 W0
  = (Normal tt, W0).
Proof.
  exact (no_endpoint_no_host_call
           (refHost true) forwardSel textNode2 "b2" 0 3 W0
           "b1" 2 "b1" 7 false eq_refl eq_refl eq_refl).
Defined.

(** C10, witness: with the focus in another element, on the browser with
    [extend], the focus is applied through the range of the selection. *)
Lemma focus_elsewhere_witness :
  issues (addFocusToSelection (refHost true) (Some textNode1) 7 forwardSel)
         (world0 (Some otherInput))
         [CallGetRangeAt 0; CallSetEnd (Some textNode1) 7; CallCloneRange;
          CallAddRange].
Proof.
  exact (proj1 (proj2 (proj1 focus_extends_only_under_active_element
                             _ (refHost true) (Some textNode1) 7 forwardSel
                             (world0 (Some otherInput))))).
Defined.

(** *** Selections as the reference browser ends up holding them *)

Example forward_run :
  let b := browser (snd (setDraftEditorSelection (refHost true) forwardSel
                                                 textNode1 "b1" 0 11 W0)) in
  anchorPoint b = Some (textNode1, 2) /\
  focusPoint b = Some (textNode1, 7) /\
  backward b = false.
Proof. repeat split. Qed.

Example backward_run_with_extend :
  let b := browser (snd (setDraftEditorSelection (refHost true) backwardSel
                                                 textNode1 "b1" 0 11 W0)) in
  anchorPoint b = Some (textNode1, 7) /\
  focusPoint b = Some (textNode1, 2) /\
  backward b = true.
Proof. repeat split. Qed.

Example backward_run_without_extend :
  let b := browser (snd (setDraftEditorSelection (refHost false) backwardSel
                                                 textNode1 "b1" 0 11 W0)) in
  anchorPoint b = Some (textNode1, 2) /\
  focusPoint b = Some (textNode1, 7) /\
  backward b = false.
Proof. repeat split. Qed.

(** The backward selection across two blocks, applied node by node: the
    focus node first, then the anchor node. *)
Example backward_across_blocks_run :
  let b := browser (snd (setDraftEditorSelection
                           (refHost true) acrossSel textNode2 "b2" 0 3
                           (focusApplied (Some editorNode)))) in
  anchorPoint b = Some (textNode2, 1) /\
  focusPoint b = Some (textNode1, 2) /\
  backward b = true.
Proof. repeat split. Qed.

Example anonymized_editor :
  getAnonymizedEditorDOM refInnerHTML textNode1
  = Normal ("<div data-offset-key><span>[text 11]</span></div>"
            ++ "<div data-offset-key><span>[text 3]</span></div>")%string.
Proof. reflexivity. Qed.

(** *** Drops *)

Local Abbreviation inside := (toy caretAtText1).
Local Abbreviation outside := (toy caretAtContainer).

(** The drop point of [inside]: offset 3 of block "b1". *)
Local Abbreviation at3 := (mkSelectionState "b1" 3 "b1" 3 false).

(** C2: a drop on the editor's container, which no block contains, makes
    [getSelectionForEvent] throw; [onDrop] throws with it, and neither
    [preventDefault] nor [exitCurrentMode] was called.  The other way of
    failing, a browser that gives no point at all, returns null and both
    calls are made. *)
Lemma drop_outside_blocks_prevents_nothing :
  onDrop outside textDrop (toyEditor outside toyState0 false)
  = (Throw NullThrows, toyEditor outside toyState0 false) /\
  effects (toyEditor outside toyState0 false) = [] /\
  getSelectionForEvent (toy None) textDrop toyState0 = Normal None /\
  effects (snd (onDrop (toy None) textDrop
                       (toyEditor (toy None) toyState0 false)))
  = [PreventDefault; ExitCurrentMode].
Proof. repeat split. Qed.

Lemma drop_prevents_default_witness :
  fst (onDrop inside textDrop (toyEditor inside toyState0 false))
  = Normal tt /\
  exists rest,
    effects (snd (onDrop inside textDrop (toyEditor inside toyState0 false)))
    = [] ++ PreventDefault :: ExitCurrentMode :: rest.
Proof.
  exact (drop_prevents_default_and_exits_mode
           inside textDrop (toyEditor inside toyState0 false) (Some at3)
           eq_refl).
Defined.

(** C3: the browser located the drop in a node none of whose ancestors
    carries an offset key, and [getSelectionForEvent] throws rather than
    returning null; the drop is not passed over: the exception leaves
    [onDrop].  Where the browser gives no point at all the same function
    returns null. *)
Lemma no_offset_key_throws :
  dropPoint outside (textDrop (File := string))
  = Normal (Some (Some editorNode, Some 0)) /\
  findAncestorOffsetKey outside editorNode = None /\
  getSelectionForEvent outside textDrop toyState0 = Throw NullThrows /\
  fst (onDrop outside textDrop (toyEditor outside toyState0 true))
  = Throw NullThrows /\
  getSelectionForEvent (toy None) textDrop toyState0 = Normal None.
Proof. repeat split. Qed.

Lemma resolution_failure_witness :
  getSelectionForEvent outside textDrop toyState0 = Throw NullThrows /\
  onDrop outside textDrop (toyEditor outside toyState0 true)
  = (Throw NullThrows, toyEditor outside toyState0 true) /\
  onDrop (toy None) textDrop (toyEditor (toy None) toyState0 true)
  = (Normal tt,
     mkEditor (C := toy None) toyState0 true None None
              [PreventDefault; ExitCurrentMode]).
Proof.
  pose proof (resolution_failure_outcomes
                outside textDrop (toyEditor outside toyState0 true))
    as (_ & K & _ & _ & T).
  pose proof (resolution_failure_outcomes
                (toy None) textDrop (toyEditor (toy None) toyState0 true))
    as (N & _ & _ & U & _).
  split; [exact (K editorNode (Some 0) eq_refl eq_refl) |].
  split; [exact (T NullThrows eq_refl) |].
  exact (U (N eq_refl eq_refl)).
Defined.

(** C4, witness: "world" (6..11 of "hello world") dragged inside the
    editor and dropped at offset 3, with a [handleDrop] hook that
    declines. *)
Lemma internal_drop_witness :
  let moved :=
    mkToy [("b1", "helworldlo "); ("b2", "bye")]
          (toySelection toyState0) "insert-fragment" [blocks toyState0] in
  onDrop inside textDrop
         (mkEditor (C := inside) toyState0 true None
                   (Some (fun _ _ _ => false)) [])
  = (Normal tt,
     mkEditor (C := inside) moved true None (Some (fun _ _ _ => false))
              [PreventDefault; ExitCurrentMode; Update (C := inside) moved]).
Proof.
  exact (internal_drop_is_one_move
           inside textDrop
           (mkEditor (C := inside) toyState0 true None
                     (Some (fun _ _ _ => false)) [])
           at3 eq_refl eq_refl eq_refl eq_refl).
Defined.

(** C5, witness: a file dropped at offset 3; its text arrives after the
    editor moved on to another state. *)
Lemma file_drop_witness :
  let later :=
    mkEditor (C := inside) (mkToy [("b1", "changed"); ("b2", "bye")]
                    (toySelection toyState0) "" [])
             false None None [] in
  let inserted :=
    mkToy [("b1", "helXYlo world"); ("b2", "bye")]
          (toySelection toyState0) "insert-fragment" [blocks toyState0] in
  onDrop inside fileDrop (toyEditor inside toyState0 false)
  = (Normal tt,
     mkEditor (C := inside) toyState0 false None None
              [PreventDefault; ExitCurrentMode;
               ExtractText (C := inside) ["notes.txt"] toyState0 at3]) /\
  fileTextCallback inside toyState0 at3 "XY" later
  = (Normal tt,
     mkEditor (C := inside) inserted false None None [Update (C := inside) inserted]).
Proof.
  pose proof (file_drop_inserts_into_captured_state
                inside fileDrop (toyEditor inside toyState0 false) at3
                ltac:(discriminate) eq_refl eq_refl) as (D & _ & T).
  split; [exact D |].
  refine (T _ "XY" _). discriminate.
Defined.

End Runs.

(* ===================================================================== *)
(** ** The anonymized snapshot *)
(* ===================================================================== *)

Module SnapshotFacts.
Import DomFacts.

(** Induction on trees, with the children of a node covered. *)
Lemma tree_induction (P : Tree -> Prop) :
  (forall i d, P (TextNode i d)) ->
  (forall i tag attrs cs, Forall P cs -> P (Element i tag attrs cs)) ->
  (forall i cs, Forall P cs -> P (Fragment i cs)) ->
  (forall i d, P (CharData i d)) ->
  forall t, P t.
Proof.
  intros HT HE HF HC.
  fix IH 1. intros [i d | i tag attrs cs | i cs | i d].
  - apply HT.
  - apply HE. induction cs as [| c cs IHcs]; constructor; [apply IH | exact IHcs].
  - apply HF. induction cs as [| c cs IHcs]; constructor; [apply IH | exact IHcs].
  - apply HC.
Qed.

Lemma flat_map_anonymized cs :
  Forall (fun t => textsOf (anonymizeText t) = map lengthTag (textsOf t)) cs ->
  flat_map textsOf (map anonymizeText cs)
  = map lengthTag (flat_map textsOf cs).
Proof.
  induction 1 as [| c cs Hc _ IH]; [reflexivity |].
  simpl. rewrite map_app, Hc, IH. reflexivity.
Qed.

(** X1: in the anonymized copy every text is the length tag of the text it
    stands for, in the same order: of a text only its length gets out. *)
Theorem anonymized_texts_are_length_tags t :
  textsOf (anonymizeText t) = map lengthTag (textsOf t).
Proof.
  induction t as [i d | i tag attrs cs IH | i cs IH | i d]
    using tree_induction; simpl;
    try reflexivity; apply flat_map_anonymized; exact IH.
Qed.

Lemma map_skeleton_anonymized cs :
  Forall (fun t => skeleton (anonymizeText t) = skeleton t) cs ->
  map skeleton (map anonymizeText cs) = map skeleton cs.
Proof.
  induction 1 as [| c cs Hc _ IH]; [reflexivity |].
  simpl. rewrite Hc, IH. reflexivity.
Qed.

(** X2: apart from the data of text nodes the anonymized copy is the tree
    itself: ids, tags, attributes, comments and the shape are kept. *)
Theorem anonymized_keeps_skeleton t :
  skeleton (anonymizeText t) = skeleton t.
Proof.
  induction t as [i d | i tag attrs cs IH | i cs IH | i d]
    using tree_induction; simpl;
    try reflexivity; f_equal; apply map_skeleton_anonymized; exact IH.
Qed.

Lemma skeleton_text_count t1 :
  forall t2, skeleton t1 = skeleton t2 ->
             List.length (textsOf t1) = List.length (textsOf t2).
Proof.
  induction t1 as [i d | i tag attrs cs IH | i cs IH | i d]
    using tree_induction;
    intros [i2 d2 | i2 tag2 attrs2 cs2 | i2 cs2 | i2 d2] E;
    simpl in E; try discriminate E; try reflexivity.
  - injection E as _ _ _ E. simpl.
    revert cs2 E. induction IH as [| c cs Hc _ IHcs];
      intros [| c2 cs2] E; simpl in E; try discriminate E; [reflexivity |].
    injection E as Ec Ecs. simpl. rewrite !length_app.
    rewrite (Hc c2 Ec), (IHcs cs2 Ecs). reflexivity.
  - injection E as _ E. simpl.
    revert cs2 E. induction IH as [| c cs Hc _ IHcs];
      intros [| c2 cs2] E; simpl in E; try discriminate E; [reflexivity |].
    injection E as Ec Ecs. simpl. rewrite !length_app.
    rewrite (Hc c2 Ec), (IHcs cs2 Ecs). reflexivity.
Qed.

Lemma app_map_length_split {A B} (f : A -> B) (a1 b1 a2 b2 : list A) :
  List.length a1 = List.length a2 ->
  map f (a1 ++ b1) = map f (a2 ++ b2) ->
  map f a1 = map f a2 /\ map f b1 = map f b2.
Proof.
  revert a2. induction a1 as [| x a1 IH]; intros [| y a2] L E;
    simpl in *; try discriminate L.
  - split; [reflexivity | exact E].
  - injection E as Ex E. injection L as L.
    destruct (IH a2 L E) as [E1 E2]. split; [now rewrite Ex, E1 | exact E2].
Qed.

Lemma anonymized_children_equal cs :
  Forall (fun t1 => forall t2,
              skeleton t1 = skeleton t2 ->
              map String.length (textsOf t1) = map String.length (textsOf t2) ->
              anonymizeText t1 = anonymizeText t2) cs ->
  forall cs2,
    map skeleton cs = map skeleton cs2 ->
    map String.length (flat_map textsOf cs)
    = map String.length (flat_map textsOf cs2) ->
    map anonymizeText cs = map anonymizeText cs2.
Proof.
  induction 1 as [| c cs Hc _ IH]; intros [| c2 cs2] S L;
    simpl in S; try discriminate S; [reflexivity |].
  injection S as Sc Scs. simpl in L.
  destruct (app_map_length_split _ _ _ _ _ (skeleton_text_count _ _ Sc) L)
    as [Lc Lcs].
  simpl. rewrite (Hc c2 Sc Lc), (IH cs2 Scs Lcs). reflexivity.
Qed.

(** X3: two trees that differ only in the characters of their texts, text
    by text of the same length, have the same anonymized copy: the
    snapshot tells the lengths of the texts and nothing else of them. *)
Theorem anonymized_depends_on_lengths_only t1 :
  forall t2,
    skeleton t1 = skeleton t2 ->
    map String.length (textsOf t1) = map String.length (textsOf t2) ->
    anonymizeText t1 = anonymizeText t2.
Proof.
  induction t1 as [i d | i tag attrs cs IH | i cs IH | i d]
    using tree_induction;
    intros [i2 d2 | i2 tag2 attrs2 cs2 | i2 cs2 | i2 d2] S L;
    simpl in S; try discriminate S.
  - injection S as ->. simpl in L. injection L as L. simpl. now rewrite L.
  - injection S as -> -> -> S. simpl. f_equal.
    apply anonymized_children_equal; assumption.
  - injection S as -> S. simpl. f_equal.
    apply anonymized_children_equal; assumption.
  - injection S as -> ->. reflexivity.
Qed.

Section Serializer.
Variable innerHTML : Tree -> string.

(** X4: [getAnonymizedDOM] answers "[empty]" for null, the length tag for
    a text and the serialized anonymized copy for an element; for any other
    node (a comment, a document fragment) its [invariant] fails. *)
Theorem getAnonymizedDOM_cases (node : option Tree) :
  getAnonymizedDOM innerHTML node =
  match node with
  | None => Normal "[empty]"%string
  | Some (TextNode _ d) => Normal (lengthTag d)
  | Some (Element i tag attrs cs) =>
      Normal (innerHTML (anonymizeText (Element i tag attrs cs)))
  | Some (Fragment _ _) | Some (CharData _ _) => Throw InvariantViolation
  end.
Proof. destruct node as [[i d | i tag attrs cs | i cs | i d] |]; reflexivity. Qed.

Lemma findEditorDOM_find above :
  forall currentNode,
    findEditorDOM innerHTML currentNode above =
    match find isEditorContainer (currentNode :: above) with
    | Some container => Normal (innerHTML (anonymizeText container))
    | None => Normal "Could not find contentEditable parent of node"%string
    end.
Proof.
  induction above as [| p ps IH]; intros c; cbn [findEditorDOM find];
    unfold isEditorContainer at 1;
    destruct (isElement c && hasAttribute c "contenteditable") eqn:E;
    try (apply andb_prop in E; destruct E as [E _];
         now rewrite (getAnonymizedDOM_element _ _ E)).
  - reflexivity.
  - apply IH.
Qed.

(** X5: [getAnonymizedEditorDOM] never throws: it serializes the anonymized
    copy of the nearest element carrying [contenteditable], starting with
    the node itself, and answers a fixed message when there is none. *)
Theorem getAnonymizedEditorDOM_nearest_container (node : Node) :
  getAnonymizedEditorDOM innerHTML node =
  match find isEditorContainer (self node :: ancestors node) with
  | Some container => Normal (innerHTML (anonymizeText container))
  | None => Normal "Could not find contentEditable parent of node"%string
  end.
Proof. apply findEditorDOM_find. Qed.

End Serializer.

End SnapshotFacts.

(* ===================================================================== *)
(** ** setDraftEditorSelection: the remaining cases and what it never does *)
(* ===================================================================== *)

Module SelectionCases.
Import JsFacts DomFacts SelectionFacts.

Section WithHost.
Context {St : Type} (H : Host St).
Local Abbreviation W := (World St).

(** X6: when the editor root is missing, or is neither the node nor one of
    its ancestors, [setDraftEditorSelection] returns at once: no host call,
    nothing logged, no exception, whatever the selection. *)
Theorem stale_node_is_skipped sel node bk ns ne (w : W) :
  (forall root,
      editorShadowRoot H (browser w) = Some root ->
      forallb (fun t => negb (sameNode (self root) t))
              (self node :: ancestors node) = true) ->
  setDraftEditorSelection H sel node bk ns ne w = (Normal tt, w).
Proof.
  intros Away. apply detached_noop.
  destruct (editorShadowRoot H (browser w)) as [root |]; [| reflexivity].
  specialize (Away root eq_refl). cbn [forallb] in Away.
  apply andb_prop in Away. destruct Away as [Self Above].
  unfold containsNode. apply negb_true_iff in Self. rewrite Self.
  destruct (isTextNode (self root)); [reflexivity |].
  apply not_true_is_false. intros In. apply existsb_exists in In.
  destruct In as (t & It & St').
  rewrite forallb_forall in Above. specialize (Above t It).
  rewrite St' in Above. discriminate Above.
Qed.

(** Clearing and setting a start point, when it is all a call does. *)
Lemma restart_only_run sel node bk ns ne (w : W) p :
  setDraftEditorSelection H sel node bk ns ne w =
    ((callHost CallRemoveAllRanges (removeAllRanges H) ;;
      addPointToSelection H node p sel) ;; ret tt) w ->
  setDraftEditorSelection H sel node bk ns ne w =
    (callHost CallRemoveAllRanges (removeAllRanges H) ;;
     addPointToSelection H node p sel) w
  /\ issues (setDraftEditorSelection H sel node bk ns ne) w
            (CallRemoveAllRanges :: pointCalls node p).
Proof.
  intros Q.
  assert (Q' : setDraftEditorSelection H sel node bk ns ne w =
               (callHost CallRemoveAllRanges (removeAllRanges H) ;;
                addPointToSelection H node p sel) w).
  { rewrite Q. unfold bind.
    destruct (callHost CallRemoveAllRanges (removeAllRanges H) w)
      as [[[] | e] w1]; [| reflexivity].
    destruct (addPointToSelection H node p sel w1)
      as [[[] | e] w2]; reflexivity. }
  split; [exact Q' |].
  eapply issues_ext; [exact Q' |].
  change (CallRemoveAllRanges :: pointCalls node p)
    with ([CallRemoveAllRanges] ++ pointCalls node p).
  apply issues_bind; [apply issues_callHost | intros _ w1 _].
  apply issues_addPoint.
Qed.

Lemma anchor_only_run sel node bk ns ne (w : W) aK aO fK fO :
  containsNode (editorShadowRoot H (browser w)) (Some node) = true ->
  swapped H sel = (aK, aO, fK, fO, false) ->
  within aK aO bk ns ne = true ->
  within fK fO bk ns ne = false ->
  setDraftEditorSelection H sel node bk ns ne w =
    ((callHost CallRemoveAllRanges (removeAllRanges H) ;;
      addPointToSelection H node (aO - ns) sel) ;; ret tt) w.
Proof.
  intros A E HA HF.
  assert (Q := attached_unfold H _ _ bk ns ne _ _ _ _ _ _ A E).
  rewrite HA, HF in Q. exact Q.
Qed.

Lemma focus_only_run sel node bk ns ne (w : W) aK aO fK fO :
  containsNode (editorShadowRoot H (browser w)) (Some node) = true ->
  swapped H sel = (aK, aO, fK, fO, false) ->
  within aK aO bk ns ne = false ->
  within fK fO bk ns ne = true ->
  setDraftEditorSelection H sel node bk ns ne w =
    addFocusToSelection H (Some node) (fO - ns) sel w.
Proof.
  intros A E HA HF.
  assert (Q := attached_unfold H _ _ bk ns ne _ _ _ _ _ _ A E).
  rewrite HA, HF in Q. exact Q.
Qed.

Lemma backward_focus_run sel node bk ns ne (w : W) aK aO fK fO :
  containsNode (editorShadowRoot H (browser w)) (Some node) = true ->
  swapped H sel = (aK, aO, fK, fO, true) ->
  within aK aO bk ns ne = false ->
  within fK fO bk ns ne = true ->
  setDraftEditorSelection H sel node bk ns ne w =
    ((callHost CallRemoveAllRanges (removeAllRanges H) ;;
      addPointToSelection H node (fO - ns) sel) ;; ret tt) w.
Proof.
  intros A E HA HF.
  assert (Q := attached_unfold H _ _ bk ns ne _ _ _ _ _ _ A E).
  rewrite HA, HF in Q. exact Q.
Qed.

Lemma backward_anchor_run sel node bk ns ne (w : W) aK aO fK fO :
  containsNode (editorShadowRoot H (browser w)) (Some node) = true ->
  swapped H sel = (aK, aO, fK, fO, true) ->
  within aK aO bk ns ne = true ->
  within fK fO bk ns ne = false ->
  setDraftEditorSelection H sel node bk ns ne w =
    ((callHost CallRemoveAllRanges (removeAllRanges H) ;;
      addPointToSelection H node (aO - ns) sel) ;;
     addFocusToSelection H (focusNode H (browser w))
                         (Host.focusOffset H (browser w)) sel) w.
Proof.
  intros A E HA HF.
  assert (Q := attached_unfold H _ _ bk ns ne _ _ _ _ _ _ A E).
  rewrite HA, HF in Q. cbn [andb negb] in Q. rewrite Q.
  rewrite bind_assoc. reflexivity.
Qed.

(** X7: a forward selection whose anchor, and not its focus, lies in an
    attached node: the selection is cleared and its start point set at
    anchor - nodeStart; the focus is left for the call on the node that
    holds it. *)
Theorem forward_anchor_only sel node bk ns ne (w : W) aK aO fK fO :
  containsNode (editorShadowRoot H (browser w)) (Some node) = true ->
  swapped H sel = (aK, aO, fK, fO, false) ->
  within aK aO bk ns ne = true ->
  within fK fO bk ns ne = false ->
  setDraftEditorSelection H sel node bk ns ne w =
    (callHost CallRemoveAllRanges (removeAllRanges H) ;;
     addPointToSelection H node (aO - ns) sel) w
  /\ issues (setDraftEditorSelection H sel node bk ns ne) w
            (CallRemoveAllRanges :: pointCalls node (aO - ns)).
Proof.
  intros A E HA HF.
  apply restart_only_run.
  eapply anchor_only_run; eassumption.
Qed.

(** X8: a forward selection whose focus, and not its anchor, lies in an
    attached node: the focus is applied at focus - nodeStart to the
    selection as it stands; the ranges are not cleared and no start point
    is set. *)
Theorem forward_focus_only sel node bk ns ne (w : W) aK aO fK fO :
  containsNode (editorShadowRoot H (browser w)) (Some node) = true ->
  swapped H sel = (aK, aO, fK, fO, false) ->
  within aK aO bk ns ne = false ->
  within fK fO bk ns ne = true ->
  setDraftEditorSelection H sel node bk ns ne w =
    addFocusToSelection H (Some node) (fO - ns) sel w
  /\ issues (setDraftEditorSelection H sel node bk ns ne) w
            (focusCalls (usesExtend H w (Some node)) (Some node) (fO - ns)).
Proof.
  intros A E HA HF.
  assert (Q := focus_only_run _ _ _ _ _ _ _ _ _ _ A E HA HF).
  split; [exact Q |].
  eapply issues_ext; [exact Q | apply issues_addFocus].
Qed.

(** X9: a backward selection (on a host with [extend]) whose focus, and
    not its anchor, lies in an attached node: the selection is cleared and
    restarted as a collapsed range at focus - nodeStart, to be picked up
    when the anchor's node is visited. *)
Theorem backward_focus_only sel node bk ns ne (w : W) aK aO fK fO :
  containsNode (editorShadowRoot H (browser w)) (Some node) = true ->
  swapped H sel = (aK, aO, fK, fO, true) ->
  within aK aO bk ns ne = false ->
  within fK fO bk ns ne = true ->
  extendSupported H = true
  /\ setDraftEditorSelection H sel node bk ns ne w =
       (callHost CallRemoveAllRanges (removeAllRanges H) ;;
        addPointToSelection H node (fO - ns) sel) w
  /\ issues (setDraftEditorSelection H sel node bk ns ne) w
            (CallRemoveAllRanges :: pointCalls node (fO - ns)).
Proof.
  intros A E HA HF.
  assert (X : extendSupported H = true).
  { unfold swapped in E. destruct (extendSupported H); [reflexivity |].
    destruct (getIsBackward sel); cbn in E; injection E as _ _ _ _ E;
      discriminate E. }
  split; [exact X |].
  apply restart_only_run.
  eapply backward_focus_run; eassumption.
Qed.

(** *** Calls that are never made *)

Lemma addsOnly_silent {A} ok (m : M W A) :
  (forall w, calls (snd (m w)) = calls w) -> addsOnly ok m.
Proof. intros S w. exists []. rewrite S, app_nil_r. now split. Qed.

Lemma addsOnly_bind {A B} ok (m : M W A) (k : A -> M W B) :
  addsOnly ok m -> (forall a, addsOnly ok (k a)) -> addsOnly ok (bind m k).
Proof.
  intros Gm Gk w. unfold bind.
  destruct (Gm w) as (c1 & C1 & O1).
  destruct (m w) as [[a | e] w1]; cbn [snd] in *.
  - destruct (Gk a w1) as (c2 & C2 & O2).
    exists (c1 ++ c2). rewrite C2, C1, app_assoc, forallb_app, O1, O2.
    now split.
  - exists c1. now split.
Qed.

Lemma addsOnly_callHost {A} ok c (op : St -> Completion A * St) :
  ok c = true -> addsOnly ok (callHost c op).
Proof.
  intros O w. unfold callHost. destruct (op (browser w)) as [r s'].
  exists [c]. cbn. now rewrite O.
Qed.

Lemma addsOnly_logIfBeyond ok node offset sel :
  addsOnly ok (logIfBeyond H node offset sel).
Proof. apply addsOnly_silent. apply logIfBeyond_calls. Qed.

Lemma addsOnly_addPoint ok node offset sel :
  ok CallCreateRange = true ->
  ok (CallSetStart (Some node) offset) = true ->
  ok CallAddRange = true ->
  addsOnly ok (addPointToSelection H node offset sel).
Proof.
  intros O1 O2 O3. unfold addPointToSelection.
  repeat first
    [ apply addsOnly_logIfBeyond
    | apply addsOnly_callHost; assumption
    | apply addsOnly_bind; [| intros ?] ].
Qed.

(** X10: on a host whose selection has no [extend],
    [setDraftEditorSelection] never calls [selection.extend], for any
    selection, forward or backward, and any node. *)
Theorem never_extends_without_support sel node bk ns ne :
  extendSupported H = false ->
  addsOnly (fun c => negb (isExtendCall c))
           (setDraftEditorSelection H sel node bk ns ne).
Proof.
  intros X. unfold setDraftEditorSelection, addFocusToSelection,
              Selection.getSelection.
  rewrite X. cbn [andb].
  destruct (swapped H sel) as [[[[aK aO] fK] fO] bw].
  apply addsOnly_bind; [now apply addsOnly_silent | intros root].
  destruct (negb _); [now apply addsOnly_silent |].
  apply addsOnly_bind.
  { apply addsOnly_bind; [now apply addsOnly_silent | intros r].
    destruct r; now apply addsOnly_silent. }
  intros _.
  destruct (within aK aO bk ns ne), (within fK fO bk ns ne), bw;
    cbn [andb negb];
    repeat first
      [ apply addsOnly_addPoint; reflexivity
      | apply addsOnly_callHost; reflexivity
      | now apply addsOnly_silent
      | apply addsOnly_bind; [| intros ?] ].
Qed.

(** X11: a call of [setDraftEditorSelection] that does not hold the anchor
    never clears the selection of a forward selection: without the anchor
    in the node, [removeAllRanges] is not called. *)
Theorem never_clears_without_anchor sel node bk ns ne aK aO fK fO :
  swapped H sel = (aK, aO, fK, fO, false) ->
  within aK aO bk ns ne = false ->
  addsOnly (fun c => negb (isClearCall c))
           (setDraftEditorSelection H sel node bk ns ne).
Proof.
  intros E HA. unfold setDraftEditorSelection, addFocusToSelection,
                 Selection.getSelection.
  rewrite E, HA. cbn [andb negb].
  apply addsOnly_bind; [now apply addsOnly_silent | intros root].
  destruct (negb _); [now apply addsOnly_silent |].
  apply addsOnly_bind.
  { apply addsOnly_bind; [now apply addsOnly_silent | intros r].
    destruct r; now apply addsOnly_silent. }
  intros _.
  destruct (within fK fO bk ns ne);
    repeat first
      [ apply addsOnly_logIfBeyond
      | apply addsOnly_callHost; reflexivity
      | now apply addsOnly_silent
      | match goal with
        | |- addsOnly _ (if ?b then _ else _) => destruct b
        end
      | apply addsOnly_bind; [| intros ?] ].
Qed.

(** *** Exceptions are the host's *)

Lemma normal_bind {A B} (m : M W A) (k : A -> M W B) :
  (forall w, isNormal (fst (m w)) = true) ->
  (forall a w, isNormal (fst (k a w)) = true) ->
  forall w, isNormal (fst (bind m k w)) = true.
Proof.
  intros Nm Nk w. unfold bind. specialize (Nm w).
  destruct (m w) as [[a | e] w1]; [apply Nk | discriminate Nm].
Qed.

Lemma normal_callHost {A} c (op : St -> Completion A * St) :
  (forall s, isNormal (fst (op s)) = true) ->
  forall w : W, isNormal (fst (callHost c op w)) = true.
Proof.
  intros N w. unfold callHost. specialize (N (browser w)).
  destruct (op (browser w)) as [r s']. exact N.
Qed.

(** The logging block itself cannot fail on a node. *)
Lemma normal_logIfBeyond n offset sel (w : W) :
  isNormal (fst (logIfBeyond H (Some n) offset sel w)) = true.
Proof.
  unfold logIfBeyond. destruct (offset >? _); [| reflexivity].
  unfold bind, lift.
  destruct (getAnonymizedEditorDOM_normal (innerHTML H) n) as [dom D].
  rewrite D. reflexivity.
Qed.

Lemma normal_addPoint node offset sel :
  neverThrows H ->
  forall w : W, isNormal (fst (addPointToSelection H node offset sel w)) = true.
Proof.
  intros (N1 & N2 & N3 & N4 & N5 & N6 & N7 & N8).
  unfold addPointToSelection.
  apply normal_bind; [now apply normal_callHost | intros r].
  apply normal_bind; [apply normal_logIfBeyond | intros _].
  apply normal_bind; [now apply normal_callHost | intros _].
  now apply normal_callHost.
Qed.

Lemma normal_addFocus node offset sel :
  neverThrows H ->
  forall w : W, isNormal (fst (addFocusToSelection H node offset sel w)) = true.
Proof.
  intros (N1 & N2 & N3 & N4 & N5 & N6 & N7 & N8) w.
  rewrite addFocus_unfold. unfold usesExtend.
  destruct (extendSupported H
            && containsNode (getActiveElement H (browser w)) node) eqn:U.
  - destruct node as [n |].
    + revert w U. intros w _.
      apply normal_bind; [apply normal_logIfBeyond | intros _].
      now apply normal_callHost.
    + apply andb_prop in U. destruct U as [_ U]. unfold containsNode in U.
      destruct (getActiveElement H (browser w)); discriminate U.
  - revert w U. intros w _.
    apply normal_bind; [now apply normal_callHost | intros r].
    apply normal_bind; [now apply normal_callHost | intros _].
    apply normal_bind; [now apply normal_callHost | intros c].
    now apply normal_callHost.
Qed.

(** X12: [setDraftEditorSelection] raises nothing of its own: on a host
    none of whose selection and range calls throws it always completes,
    whatever the selection, the node and the offsets (its [invariant], its
    null dereferences and its logging are never what fails). *)
Theorem completes_when_host_does sel node bk ns ne (w : W) :
  neverThrows H ->
  fst (setDraftEditorSelection H sel node bk ns ne w) = Normal tt.
Proof.
  intros N.
  assert (G : isNormal (fst (setDraftEditorSelection H sel node bk ns ne w))
              = true).
  { destruct (containsNode (editorShadowRoot H (browser w)) (Some node))
      eqn:A; [| now rewrite (detached_noop H _ _ _ _ _ _ A)].
    destruct (swapped H sel) as [[[[aK aO] fK] fO] bw] eqn:E.
    rewrite (attached_unfold H _ _ bk ns ne _ _ _ _ _ _ A E).
    pose proof (normal_addPoint node) as NP.
    pose proof normal_addFocus as NF.
    pose proof N as (N1 & _).
    destruct (within aK aO bk ns ne), (within fK fO bk ns ne), bw;
      cbn [andb negb];
      repeat first
        [ apply NP; assumption
        | apply NF; assumption
        | apply normal_callHost; assumption
        | reflexivity
        | apply normal_bind; [intros ? | intros ? ?] ]. }
  destruct (fst (setDraftEditorSelection H sel node bk ns ne w)) as [[] | e];
    [reflexivity | discriminate G].
Qed.

(** *** Offsets within the node are not logged *)

Lemma quiet_bind {A B} (m : M W A) (k : A -> M W B) :
  (forall w, logged (snd (m w)) = logged w) ->
  (forall a w, logged (snd (k a w)) = logged w) ->
  forall w, logged (snd (bind m k w)) = logged w.
Proof.
  intros Qm Qk w. unfold bind. specialize (Qm w).
  destruct (m w) as [[a | e] w1]; cbn [snd] in *;
    [rewrite Qk |]; exact Qm.
Qed.

Lemma quiet_callHost {A} c (op : St -> Completion A * St) (w : W) :
  logged (snd (callHost c op w)) = logged w.
Proof. unfold callHost. destruct (op (browser w)). reflexivity. Qed.

Lemma quiet_logIfBeyond n offset sel (w : W) :
  offset <= Z.of_nat (getNodeLength (self n)) ->
  logged (snd (logIfBeyond H (Some n) offset sel w)) = logged w.
Proof.
  intros L. unfold logIfBeyond.
  destruct (Z.gtb_spec offset (Z.of_nat (getNodeLength (self n))));
    [lia | reflexivity].
Qed.

Lemma quiet_addPoint node offset sel :
  offset <= Z.of_nat (getNodeLength (self node)) ->
  forall w : W,
    logged (snd (addPointToSelection H node offset sel w)) = logged w.
Proof.
  intros L. unfold addPointToSelection.
  apply quiet_bind; [apply quiet_callHost | intros r].
  apply quiet_bind; [intros w; now apply quiet_logIfBeyond | intros _].
  apply quiet_bind; [apply quiet_callHost | intros _].
  apply quiet_callHost.
Qed.

Lemma quiet_addFocus node offset sel :
  offset <= Z.of_nat (getNodeLength (self node)) ->
  forall w : W,
    logged (snd (addFocusToSelection H (Some node) offset sel w)) = logged w.
Proof.
  intros L w. destruct (usesExtend H w (Some node)) eqn:U.
  - rewrite addFocus_unfold, U. revert w U. intros w _.
    apply quiet_bind; [intros w'; now apply quiet_logIfBeyond | intros _].
    apply quiet_callHost.
  - now apply focus_fallback_logs_nothing.
Qed.

Lemma within_below key offset bk ns ne :
  within key offset bk ns ne = true -> offset - ns <= ne - ns.
Proof.
  unfold within. intros E. apply andb_prop in E. destruct E as [_ E].
  apply Z.geb_le in E. lia.
Qed.

Lemma forward_well_formed_quiet
      sel node bk ns ne (w : W) aK aO fK fO :
  swapped H sel = (aK, aO, fK, fO, false) ->
  ne - ns <= Z.of_nat (getNodeLength (self node)) ->
  logged (snd (setDraftEditorSelection H sel node bk ns ne w)) = logged w.
Proof.
  intros E L.
  destruct (containsNode (editorShadowRoot H (browser w)) (Some node))
    eqn:A; [| now rewrite (detached_noop H _ _ _ _ _ _ A)].
  rewrite (attached_unfold H _ _ bk ns ne _ _ _ _ _ _ A E).
  destruct (within aK aO bk ns ne) eqn:HA,
           (within fK fO bk ns ne) eqn:HF;
    cbn [andb negb];
    try (pose proof (within_below _ _ _ _ _ HA));
    try (pose proof (within_below _ _ _ _ _ HF));
    repeat first
      [ apply quiet_addPoint; lia
      | apply quiet_addFocus; lia
      | apply quiet_callHost
      | reflexivity
      | apply quiet_bind; [intros ? | intros ? ?] ].
Qed.

(** X13: when the node's range is no longer than its content
    (nodeEnd - nodeStart <= length), applying a forward selection, or any
    selection on a host without [extend], logs no diagnostic, whatever the
    host does. *)
Theorem well_formed_range_is_not_logged
        sel node bk ns ne (w : W) aK aO fK fO :
  swapped H sel = (aK, aO, fK, fO, false) ->
  ne - ns <= Z.of_nat (getNodeLength (self node)) ->
  logged (snd (setDraftEditorSelection H sel node bk ns ne w)) = logged w.
Proof. apply forward_well_formed_quiet. Qed.

End WithHost.
End SelectionCases.

(* ===================================================================== *)
(** ** Reading the selection back from the reference browser *)
(* ===================================================================== *)

Module RoundTrip.
Import JsFacts DomFacts SelectionFacts SelectionCases.

Lemma nth_error_snoc {A} (l : list A) x :
  nth_error (l ++ [x]) (List.length l) = Some x.
Proof. induction l as [| h t IH]; [reflexivity | exact IH]. Qed.

Lemma nth_error_before_snoc {A} (l : list A) x i y :
  nth_error l i = Some y -> nth_error (l ++ [x]) i = Some y.
Proof.
  revert i. induction l as [| h t IH]; intros [| i] E;
    try discriminate E; [exact E | apply IH; exact E].
Qed.

Lemma replaceNth_snoc {A} (l : list A) x y :
  replaceNth (l ++ [x]) (List.length l) y = l ++ [y].
Proof. induction l as [| h t IH]; [reflexivity | simpl; now rewrite IH]. Qed.

Lemma nth_error_replaceNth {A} (l : list A) i x y :
  nth_error l i = Some x -> nth_error (replaceNth l i y) i = Some y.
Proof.
  revert i. induction l as [| h t IH]; intros [| i] E;
    try discriminate E; [reflexivity | apply IH; exact E].
Qed.

Lemma inBounds_within node offset :
  0 <= offset <= Z.of_nat (getNodeLength (self node)) ->
  inBounds node offset = true.
Proof. intros B. unfold inBounds. apply andb_true_intro. split; lia. Qed.

Lemma not_beyond offset (len : nat) :
  offset <= Z.of_nat len -> (offset >? Z.of_nat len) = false.
Proof. intros L. destruct (Z.gtb_spec offset (Z.of_nat len)); [lia | reflexivity]. Qed.

(** Clearing and restarting at a point within the node leaves the
    selection collapsed there, forward. *)
Lemma restart_run withExtend node p sel (w : World Browser) :
  0 <= p <= Z.of_nat (getNodeLength (self node)) ->
  exists w1,
    (callHost CallRemoveAllRanges refRemoveAllRanges ;;
     addPointToSelection (refHost withExtend) node p sel) w = (Normal tt, w1)
    /\ selectedRange (browser w1) = Some (mkRange (Some (node, p))
                                                 (Some (node, p)))
    /\ backward (browser w1) = false
    /\ root (browser w1) = root (browser w)
    /\ active (browser w1) = active (browser w)
    /\ logged w1 = logged w.
Proof.
  intros B.
  unfold addPointToSelection, logIfBeyond, bind, callHost, ret.
  cbn [createRange setStart addRange refHost innerHTML refRemoveAllRanges
       refCreateRange browser logged calls fst snd withSelection withRanges
       ranges selected root active backward].
  rewrite (not_beyond p _ (proj2 B)).
  cbn [browser logged calls fst snd].
  unfold refSetStart.
  cbn [ranges withRanges withSelection selected root active backward].
  rewrite nth_error_snoc, (inBounds_within node p B).
  cbn [endPoint browser logged calls fst snd].
  unfold refAddRange.
  cbn [ranges withRanges withSelection selected root active backward
       browser logged calls fst snd].
  eexists. split; [reflexivity |].
  unfold selectedRange.
  cbn [ranges withRanges withSelection selected root active backward
       browser logged calls].
  rewrite replaceNth_snoc, nth_error_snoc. repeat split.
Qed.

(** Applying a focus that does not come before the start of a forward
    selection: either way the anchor stays and the focus is the point. *)
Lemma focus_run withExtend node q sel (w : World Browser) s e :
  selectedRange (browser w) = Some (mkRange (Some s) e) ->
  backward (browser w) = false ->
  pointLe s (node, q) = true ->
  0 <= q <= Z.of_nat (getNodeLength (self node)) ->
  let out := addFocusToSelection (refHost withExtend) (Some node) q sel w in
  fst out = Normal tt /\
  anchorPoint (browser (snd out)) = Some s /\
  focusPoint (browser (snd out)) = Some (node, q) /\
  backward (browser (snd out)) = false.
Proof.
  intros S Bw Le B. cbv zeta.
  rewrite addFocus_unfold.
  unfold selectedRange in S.
  destruct (selected (browser w)) as [r |] eqn:Sel; [| discriminate S].
  destruct (usesExtend (refHost withExtend) w (Some node)).
  - unfold logIfBeyond, bind, callHost, ret.
    rewrite (not_beyond q _ (proj2 B)).
    cbn [extend refHost browser logged calls fst snd].
    unfold refExtend, selectedRange, anchorPoint, selectedRange.
    rewrite Sel, S, Bw, (inBounds_within node q B).
    cbn [startPoint endPoint]. rewrite Le.
    cbn [negb browser logged calls fst snd].
    unfold anchorPoint, focusPoint, selectedRange.
    cbn [ranges withRanges withSelection selected root active backward].
    rewrite nth_error_snoc. repeat split.
  - unfold bind, callHost.
    cbn [getRangeAt setEnd cloneRange addRange refHost].
    unfold refGetRangeAt. rewrite Sel.
    cbn [browser logged calls fst snd].
    unfold refSetEnd. rewrite S, (inBounds_within node q B).
    cbn [startPoint]. rewrite Le.
    cbn [browser logged calls fst snd].
    unfold refCloneRange.
    cbn [ranges withRanges withSelection selected root active backward].
    rewrite (nth_error_replaceNth _ _ _ _ S).
    cbn [browser logged calls fst snd].
    unfold refAddRange.
    cbn [ranges withRanges withSelection selected root active backward].
    rewrite Sel. cbn [browser logged calls fst snd].
    unfold anchorPoint, focusPoint, selectedRange.
    cbn [ranges withRanges withSelection selected root active backward].
    rewrite Sel, Bw.
    rewrite (nth_error_before_snoc _ _ _ _ (nth_error_replaceNth _ _ _ _ S)).
    repeat split.
Qed.

Lemma pointLe_same node p q : p <= q -> pointLe (node, p) (node, q) = true.
Proof.
  intros L. unfold pointLe. cbn [fst snd].
  rewrite Nat.eqb_refl. apply orb_true_intro. right.
  apply Z.leb_le. exact L.
Qed.

Lemma within_bounds key offset bk ns ne :
  within key offset bk ns ne = true -> 0 <= offset - ns <= ne - ns.
Proof.
  unfold within. intros E. apply andb_prop in E. destruct E as [E E2].
  apply andb_prop in E. destruct E as [_ E1].
  apply Z.leb_le in E1. apply Z.geb_le in E2. lia.
Qed.

(** X14: round trip on the reference browser.  A forward selection lying
    in one attached node whose range is no longer than its content, once
    applied, is what the browser's selection reads: anchor at
    anchor - nodeStart and focus at focus - nodeStart in that node,
    forward; with or without [extend], wherever the focus is, and whatever
    selection the browser held before. *)
Theorem forward_selection_round_trip
        withExtend sel node bk ns ne (w : World Browser) :
  containsNode (root (browser w)) (Some node) = true ->
  getIsBackward sel = false ->
  within (getAnchorKey sel) (getAnchorOffset sel) bk ns ne = true ->
  within (getFocusKey sel) (getFocusOffset sel) bk ns ne = true ->
  getAnchorOffset sel <= getFocusOffset sel ->
  ne - ns <= Z.of_nat (getNodeLength (self node)) ->
  let out := setDraftEditorSelection (refHost withExtend) sel node bk ns ne w in
  fst out = Normal tt /\
  anchorPoint (browser (snd out)) = Some (node, getAnchorOffset sel - ns) /\
  focusPoint (browser (snd out)) = Some (node, getFocusOffset sel - ns) /\
  backward (browser (snd out)) = false /\
  logged (snd out) = logged w.
Proof.
  intros A Fw HA HF Le L. cbv zeta.
  assert (E : swapped (refHost withExtend) sel
              = (getAnchorKey sel, getAnchorOffset sel,
                 getFocusKey sel, getFocusOffset sel, false)).
  { unfold swapped. rewrite Fw, andb_false_r. reflexivity. }
  pose proof (within_bounds _ _ _ _ _ HA) as BA.
  pose proof (within_bounds _ _ _ _ _ HF) as BF.
  assert (Lg := forward_well_formed_quiet
                  (refHost withExtend) sel node bk ns ne w _ _ _ _ E L).
  rewrite (attached_unfold (refHost withExtend) _ _ bk ns ne _ _ _ _ _ _ A E),
    HA, HF in *.
  cbn [andb] in *.
  rewrite <- bind_assoc in *.
  destruct (restart_run withExtend node (getAnchorOffset sel - ns) sel w
                        ltac:(lia))
    as (w1 & R & S & Bw & _).
  cbn [removeAllRanges refHost] in *.
  rewrite (bind_normal _ _ _ _ _ R) in *.
  destruct (focus_run withExtend node (getFocusOffset sel - ns) sel w1 _ _
                      S Bw
                      (pointLe_same node (getAnchorOffset sel - ns)
                                    (getFocusOffset sel - ns) ltac:(lia))
                      ltac:(lia))
    as (N & An & Fo & Bk).
  repeat split; assumption.
Qed.




End RoundTrip.

(* ===================================================================== *)
(** ** DraftEditorDragHandler: the other drops *)
(* ===================================================================== *)

Module DropCases.
Import DragFacts.

Section WithCollaborators.
Variable C : Collaborators.

Local Abbreviation ES := (EditorState C).

Local Abbreviation after ed es :=
  (mkEditor (_latestEditorState ed) (_internalDrag ed)
            (handleDroppedFiles ed) (handleDrop ed) (effects ed ++ es)).

(** The origin tag handed to [handleDrop]. *)
Local Abbreviation dragType ed :=
  (if _internalDrag ed then "internal" else "external")%string.

(** Every way [onDrop] can end, by what decides it. *)
Lemma onDrop_outcomes ev (ed : Editor C) :
  let es := _latestEditorState ed in
  let data := dataTransfer ev in
  onDrop C ev ed =
  match getSelectionForEvent C ev es with
  | Throw e => (Throw e, ed)
  | Normal None => (Normal tt, after ed [PreventDefault; ExitCurrentMode])
  | Normal (Some dropSelection) =>
      if (0 <? List.length (getFiles data))%nat then
        if handledBy C (handleDroppedFiles ed)
                     (fun h => h dropSelection (getFiles data))
        then (Normal tt, after ed [PreventDefault; ExitCurrentMode])
        else (Normal tt,
              after ed [PreventDefault; ExitCurrentMode;
                        ExtractText (getFiles data) es dropSelection])
      else
        if handledBy C (handleDrop ed)
                     (fun h => h dropSelection data (dragType ed))
        then (Normal tt, after ed [PreventDefault; ExitCurrentMode])
        else
          let next :=
            if _internalDrag ed then moveText C es dropSelection
            else insertTextAtSelection C es dropSelection (getText data) in
          (Normal tt,
           mkEditor next (_internalDrag ed) (handleDroppedFiles ed)
                    (handleDrop ed)
                    (effects ed ++ [PreventDefault; ExitCurrentMode;
                                    Update next]))
  end.
Proof.
  cbv zeta.
  unfold onDrop, bind, readEditor, lift, preventDefault, exitCurrentMode,
    getTextContentFromFiles, update, perform.
  destruct (getSelectionForEvent C ev (_latestEditorState ed))
    as [[dropSelection |] | e];
    cbn [_latestEditorState _internalDrag handleDroppedFiles handleDrop
         effects ret];
    rewrite <- ?app_assoc; try reflexivity.
  destruct (0 <? List.length (getFiles (dataTransfer ev)))%nat;
    cbn [_latestEditorState _internalDrag handleDroppedFiles handleDrop
         effects ret].
  - destruct (handledBy C (handleDroppedFiles ed) _);
      cbn [_latestEditorState _internalDrag handleDroppedFiles handleDrop
           effects ret];
      rewrite <- ?app_assoc; reflexivity.
  - destruct (handledBy C (handleDrop ed) _);
      cbn [_latestEditorState _internalDrag handleDroppedFiles handleDrop
           effects ret];
      [rewrite <- ?app_assoc; reflexivity |].
    destruct (_internalDrag ed);
      cbn [_latestEditorState _internalDrag handleDroppedFiles handleDrop
           effects ret];
      rewrite <- ?app_assoc; reflexivity.
Qed.

(** X17: a drop of plain text from outside the editor, with no files, not
    handled by a [handleDrop] hook, whose drop point resolved: the editor
    is updated once, with the push of the data transfer's text inserted at
    the drop selection, under the change type "insert-fragment". *)
Theorem external_drop_inserts_text ev (ed : Editor C) dropSelection :
  getFiles (dataTransfer ev) = [] ->
  _internalDrag ed = false ->
  handledBy C (handleDrop ed)
            (fun h => h dropSelection (dataTransfer ev) "external"%string)
  = false ->
  getSelectionForEvent C ev (_latestEditorState ed)
  = Normal (Some dropSelection) ->
  let es := _latestEditorState ed in
  let inserted :=
    push C es
         (insertText C (getCurrentContent C es) dropSelection
                     (getText (dataTransfer ev)) (getCurrentInlineStyle C es))
         "insert-fragment" in
  onDrop C ev ed
  = (Normal tt,
     mkEditor inserted false (handleDroppedFiles ed) (handleDrop ed)
              (effects ed ++ [PreventDefault; ExitCurrentMode;
                              Update inserted])).
Proof.
  intros NoFiles External NotHandled R. cbv zeta.
  pose proof (onDrop_outcomes ev ed) as O. cbv zeta in O.
  rewrite R, NoFiles, External, NotHandled in O. exact O.
Qed.

(** X18: when a [handleDroppedFiles] hook reports a file-bearing drop as
    handled, [onDrop] does nothing more than prevent the default and leave
    drag mode: no text extraction is started and the editor is not
    updated. *)
Theorem handled_file_drop_changes_nothing ev (ed : Editor C) dropSelection :
  getFiles (dataTransfer ev) <> [] ->
  handledBy C (handleDroppedFiles ed)
            (fun h => h dropSelection (getFiles (dataTransfer ev)))
  = true ->
  getSelectionForEvent C ev (_latestEditorState ed)
  = Normal (Some dropSelection) ->
  onDrop C ev ed = (Normal tt, after ed [PreventDefault; ExitCurrentMode]).
Proof.
  intros Files Handled R.
  pose proof (onDrop_outcomes ev ed) as O. cbv zeta in O.
  rewrite R, Handled in O.
  destruct (getFiles (dataTransfer ev)); [contradiction | exact O].
Qed.

(** X19: when a [handleDrop] hook, given the drop selection, the data
    transfer and the origin tag ("internal" when the editor is the drag
    source, "external" otherwise), reports a drop without files as handled,
    the editor is not updated: neither the move nor the insertion happens. *)
Theorem handled_drop_changes_nothing ev (ed : Editor C) dropSelection :
  getFiles (dataTransfer ev) = [] ->
  handledBy C (handleDrop ed)
            (fun h => h dropSelection (dataTransfer ev) (dragType ed))
  = true ->
  getSelectionForEvent C ev (_latestEditorState ed)
  = Normal (Some dropSelection) ->
  onDrop C ev ed = (Normal tt, after ed [PreventDefault; ExitCurrentMode]).
Proof.
  intros NoFiles Handled R.
  pose proof (onDrop_outcomes ev ed) as O. cbv zeta in O.
  rewrite R, NoFiles, Handled in O. exact O.
Qed.

Lemma mutations_app (a b : list (Effect C)) :
  mutations (a ++ b) = (mutations a + mutations b)%nat.
Proof. unfold mutations. now rewrite filter_app, length_app. Qed.

(** X20: whatever the event, the hooks and the editor, one drop makes at
    most one mutation: one update of the editor or one pending text
    extraction, never both and never two. *)
Theorem at_most_one_mutation_per_drop ev (ed : Editor C) :
  (mutations (effects (snd (onDrop C ev ed)))
   <= mutations (effects ed) + 1)%nat.
Proof.
  pose proof (onDrop_outcomes ev ed) as O. cbv zeta in O. rewrite O.
  repeat match goal with
         | |- context [match ?x with _ => _ end] => destruct x
         end;
    cbn [snd effects]; try rewrite mutations_app; cbn; lia.
Qed.

(** X21: after a drop the editor's latest state is the one it had, or a
    state pushed onto that one with the change type "insert-fragment":
    the handler changes the content through [EditorState.push] alone, and
    always from the state read when the drop began. *)
Theorem drop_state_is_kept_or_pushed ev (ed : Editor C) :
  let es := _latestEditorState ed in
  _latestEditorState (snd (onDrop C ev ed)) = es \/
  exists content,
    _latestEditorState (snd (onDrop C ev ed))
    = push C es content "insert-fragment".
Proof.
  cbv zeta.
  pose proof (onDrop_outcomes ev ed) as O. cbv zeta in O. rewrite O.
  repeat match goal with
         | |- context [match ?x with _ => _ end] => destruct x
         end;
    cbn [snd _latestEditorState];
    try (left; reflexivity);
    right; unfold moveText, insertTextAtSelection; eexists; reflexivity.
Qed.

(** X22: files win over text: a drop that carries files never updates the
    editor while it is handled, also when the editor is the drag source
    and the data transfer has text; the latest state stays as it was. *)
Theorem file_drop_updates_nothing_by_itself ev (ed : Editor C) :
  getFiles (dataTransfer ev) <> [] ->
  _latestEditorState (snd (onDrop C ev ed)) = _latestEditorState ed /\
  forall es,
    In (Update es) (effects (snd (onDrop C ev ed))) ->
    In (Update es) (effects ed).
Proof.
  intros Files.
  pose proof (onDrop_outcomes ev ed) as O. cbv zeta in O. rewrite O.
  destruct (getFiles (dataTransfer ev)) as [| f fs]; [contradiction |].
  cbn [List.length Nat.ltb Nat.leb].
  repeat match goal with
         | |- context [match ?x with _ => _ end] => destruct x
         end;
    cbn [snd _latestEditorState effects];
    (split; [reflexivity |]); intros es I; try exact I;
    apply in_app_or in I; destruct I as [I | I]; try exact I;
    cbn in I;
    repeat (destruct I as [I | I]; [discriminate I |]);
    contradiction.
Qed.

(** X23: when the browser has [caretRangeFromPoint] and it returns null
    for the point of the event, [getSelectionForEvent] does not return
    null: reading [startContainer] throws a TypeError, which escapes
    [onDrop] before the default is prevented. *)
Theorem null_caret_range_throws ev (ed : Editor C) caret :
  caretRangeFromPoint C = Some caret ->
  caret (x ev) (y ev) = None ->
  getSelectionForEvent C ev (_latestEditorState ed) = Throw TypeError /\
  onDrop C ev ed = (Throw TypeError, ed).
Proof.
  intros Api Null.
  assert (R : getSelectionForEvent C ev (_latestEditorState ed)
              = Throw TypeError).
  { unfold getSelectionForEvent, dropPoint. now rewrite Api, Null. }
  split; [exact R | now apply onDrop_throws].
Qed.

(** X24: where the browser has [caretRangeFromPoint], the event's own
    [rangeParent] and [rangeOffset] are not looked at: the drop resolves
    the same whatever they are. *)
Theorem caret_range_takes_precedence ev es caret parent offset :
  caretRangeFromPoint C = Some caret ->
  getSelectionForEvent
    C (mkNativeEvent (x ev) (y ev) parent offset (dataTransfer ev)) es
  = getSelectionForEvent C ev es.
Proof.
  intros Api. unfold getSelectionForEvent, dropPoint. now rewrite Api.
Qed.

(** X25: where the browser lacks [caretRangeFromPoint], an event that has
    a [rangeParent] but no [rangeOffset] makes [getSelectionForEvent]
    throw (nullthrows), also when the node carries an offset key. *)
Theorem missing_range_offset_throws ev es parent :
  caretRangeFromPoint C = None ->
  rangeParent ev = Some parent ->
  rangeOffset ev = None ->
  getSelectionForEvent C ev es = Throw NullThrows.
Proof.
  intros NoApi P O. unfold getSelectionForEvent, dropPoint.
  now rewrite NoApi, P, O.
Qed.

End WithCollaborators.
End DropCases.

(* ===================================================================== *)
(** ** More concrete runs *)
(* ===================================================================== *)

Module MoreRuns.
Import SnapshotFacts SelectionCases RoundTrip DropCases.

Local Abbreviation W0 := (world0 (Some editorNode)).

(** The forward selection from offset 2 of "b1" to offset 1 of "b2". *)
Local Abbreviation forwardAcross := (mkSelectionState "b1" 2 "b2" 1 false).

(** The editor of the runs with other words of the same lengths. *)
Local Abbreviation otherWords :=
  (Element 2 "div" ["contenteditable"%string]
     [Element 3 "div" ["data-offset-key"%string]
        [Element 4 "span" [] [TextNode 5 "HELLO_THERE"]];
      Element 6 "div" ["data-offset-key"%string]
        [Element 7 "span" [] [TextNode 8 "no!"]]]).

Lemma same_lengths_witness :
  anonymizeText editorDiv = anonymizeText otherWords.
Proof.
  exact (anonymized_depends_on_lengths_only editorDiv otherWords
                                            eq_refl eq_refl).
Defined.

Lemma stale_node_witness :
  setDraftEditorSelection (refHost true) forwardSel detachedText "b1" 0 11 W0
  = (Normal tt, W0).
Proof.
  apply stale_node_is_skipped.
  intros root E. injection E as <-. reflexivity.
Defined.

Lemma forward_anchor_only_witness :
  issues (setDraftEditorSelection (refHost true) forwardAcross textNode1 "b1"
                                  0 11) W0
         [CallRemoveAllRanges; CallCreateRange;
          CallSetStart (Some textNode1) 2; CallAddRange].
Proof.
  exact (proj2 (forward_anchor_only (refHost true) forwardAcross textNode1
                                    "b1" 0 11 W0 "b1" 2 "b2" 1
                                    eq_refl eq_refl eq_refl eq_refl)).
Defined.

Lemma forward_focus_only_witness :
  issues (setDraftEditorSelection (refHost true) forwardAcross textNode2 "b2"
                                  0 3) W0
         [CallExtend (Some textNode2) 1].
Proof.
  exact (proj2 (forward_focus_only (refHost true) forwardAcross textNode2
                                   "b2" 0 3 W0 "b1" 2 "b2" 1
                                   eq_refl eq_refl eq_refl eq_refl)).
Defined.

Lemma backward_focus_only_witness :
  issues (setDraftEditorSelection (refHost true) acrossSel textNode1 "b1"
                                  0 11) W0
         [CallRemoveAllRanges; CallCreateRange;
          CallSetStart (Some textNode1) 2; CallAddRange].
Proof.
  exact (proj2 (proj2 (backward_focus_only
                         (refHost true) acrossSel textNode1 "b1" 0 11 W0
                         "b2" 1 "b1" 2 eq_refl eq_refl eq_refl eq_refl))).
Defined.

Lemma never_extends_witness :
  exists c,
    calls (snd (setDraftEditorSelection (refHost false) backwardSel textNode1
                                        "b1" 0 11 W0))
    = calls W0 ++ c /\
    forallb (fun c => negb (isExtendCall c)) c = true.
Proof.
  exact (never_extends_without_support (refHost false) backwardSel textNode1
                                       "b1" 0 11 eq_refl W0).
Defined.

Lemma never_clears_witness :
  exists c,
    calls (snd (setDraftEditorSelection (refHost true) forwardAcross textNode2
                                        "b2" 0 3 W0))
    = calls W0 ++ c /\
    forallb (fun c => negb (isClearCall c)) c = true.
Proof.
  exact (never_clears_without_anchor (refHost true) forwardAcross textNode2
                                     "b2" 0 3 "b1" 2 "b2" 1
                                     eq_refl eq_refl W0).
Defined.

Lemma quietHost_never_throws withExtend : neverThrows (quietHost withExtend).
Proof. repeat split. Qed.

(** On a host that accepts it, even the offset beyond the text goes
    through. *)
Lemma completes_witness :
  fst (setDraftEditorSelection (quietHost true) beyondSel textNode1 "b1" 0 20
                               (mkWorld tt [] []))
  = Normal tt.
Proof.
  exact (completes_when_host_does (quietHost true) beyondSel textNode1 "b1"
                                  0 20 (mkWorld tt [] [])
                                  (quietHost_never_throws true)).
Defined.

Lemma not_logged_witness :
  logged (snd (setDraftEditorSelection (refHost true) forwardSel textNode1
                                       "b1" 0 11 W0))
  = logged W0.
Proof.
  exact (well_formed_range_is_not_logged
           (refHost true) forwardSel textNode1 "b1" 0 11 W0 "b1" 2 "b1" 7
           eq_refl ltac:(vm_compute; discriminate)).
Defined.

Lemma round_trip_witness :
  anchorPoint (browser (snd (setDraftEditorSelection
                               (refHost false) forwardSel textNode1 "b1" 0 11
                               (world0 (Some otherInput)))))
  = Some (textNode1, 2) /\
  focusPoint (browser (snd (setDraftEditorSelection
                              (refHost false) forwardSel textNode1 "b1" 0 11
                              (world0 (Some otherInput)))))
  = Some (textNode1, 7).
Proof.
  pose proof (forward_selection_round_trip
                false forwardSel textNode1 "b1" 0 11
                (world0 (Some otherInput))
                eq_refl eq_refl eq_refl eq_refl
                ltac:(vm_compute; discriminate)
                ltac:(vm_compute; discriminate)) as (_ & A & F & _).
  split; [exact A | exact F].
Defined.



(** *** Drops *)

Local Abbreviation inside := (toy caretAtText1).
Local Abbreviation at3 := (mkSelectionState "b1" 3 "b1" 3 false).

(** An editor whose hooks answer [handled] to every drop. *)
Local Abbreviation hooked handled internal :=
  (mkEditor (C := inside) toyState0 internal
            (Some (fun _ _ => handled)) (Some (fun _ _ _ => handled)) []).

Lemma external_drop_witness :
  let inserted :=
    mkToy [("b1", "helabclo world"); ("b2", "bye")]
          (toySelection toyState0) "insert-fragment" [blocks toyState0] in
  onDrop inside textDrop (hooked false false)
  = (Normal tt,
     mkEditor (C := inside) inserted false
              (Some (fun _ _ => false)) (Some (fun _ _ _ => false))
              [PreventDefault; ExitCurrentMode;
               Update (C := inside) inserted]).
Proof.
  exact (external_drop_inserts_text inside textDrop (hooked false false) at3
                                    eq_refl eq_refl eq_refl eq_refl).
Defined.

Lemma handled_file_drop_witness :
  onDrop inside fileDrop (hooked true true)
  = (Normal tt,
     mkEditor (C := inside) toyState0 true
              (Some (fun _ _ => true)) (Some (fun _ _ _ => true))
              [PreventDefault; ExitCurrentMode]).
Proof.
  exact (handled_file_drop_changes_nothing
           inside fileDrop (hooked true true) at3
           ltac:(discriminate) eq_refl eq_refl).
Defined.

Lemma handled_drop_witness :
  onDrop inside textDrop (hooked true true)
  = (Normal tt,
     mkEditor (C := inside) toyState0 true
              (Some (fun _ _ => true)) (Some (fun _ _ _ => true))
              [PreventDefault; ExitCurrentMode]).
Proof.
  exact (handled_drop_changes_nothing
           inside textDrop (hooked true true) at3
           eq_refl eq_refl eq_refl).
Defined.

Lemma file_drop_updates_nothing_witness :
  _latestEditorState (snd (onDrop inside fileDrop (hooked false true)))
  = toyState0.
Proof.
  exact (proj1 (file_drop_updates_nothing_by_itself
                  inside fileDrop (hooked false true) ltac:(discriminate))).
Defined.

Local Abbreviation blind := (toy (Some (fun _ _ => None))).

Lemma null_caret_range_witness :
  onDrop blind textDrop (toyEditor blind toyState0 false)
  = (Throw TypeError, toyEditor blind toyState0 false).
Proof.
  exact (proj2 (null_caret_range_throws
                  blind textDrop (toyEditor blind toyState0 false)
                  (fun _ _ => None) eq_refl eq_refl)).
Defined.

Lemma caret_range_precedence_witness :
  getSelectionForEvent
    inside (mkNativeEvent 10 20 (Some textNode2) (Some 1)
                          (mkDataTransfer [] "abc")) toyState0
  = getSelectionForEvent inside textDrop toyState0.
Proof.
  exact (caret_range_takes_precedence
           inside textDrop toyState0 (fun _ _ => Some (textNode1, 3))
           (Some textNode2) (Some 1) eq_refl).
Defined.

Lemma missing_range_offset_witness :
  getSelectionForEvent
    (toy None) (mkNativeEvent 10 20 (Some textNode1) None
                              (mkDataTransfer [] "abc")) toyState0
  = Throw NullThrows.
Proof.
  exact (missing_range_offset_throws
           (toy None) (mkNativeEvent 10 20 (Some textNode1) None
                                     (mkDataTransfer [] "abc"))
           toyState0 textNode1 eq_refl eq_refl eq_refl).
Defined.

End MoreRuns.

(* ===================================================================== *)
(** ** Boundaries beyond the node, and the swap on hosts without extend *)
(* ===================================================================== *)

Module BoundaryFacts.
Import JsFacts DomFacts SelectionFacts SelectionCases.

Section WithHost.
Context {St : Type} (H : Host St).
Local Abbreviation W := (World St).

(** The start point of a call on a node: the anchor when the node holds
    it, the focus when a backward selection meets its focus first. *)
Lemma start_point_prefix sel node bk ns ne (w : W) aK aO fK fO bw p :
  containsNode (editorShadowRoot H (browser w)) (Some node) = true ->
  swapped H sel = (aK, aO, fK, fO, bw) ->
  (within aK aO bk ns ne = true /\ p = aO - ns) \/
  (bw = true /\ within aK aO bk ns ne = false /\
   within fK fO bk ns ne = true /\ p = fO - ns) ->
  exists rest : M W unit,
    grows rest /\
    setDraftEditorSelection H sel node bk ns ne w =
    (callHost CallRemoveAllRanges (removeAllRanges H) ;;
     addPointToSelection H node p sel ;;
     rest) w.
Proof.
  intros A E [[HA ->] | (-> & HA & HF & ->)].
  - eapply anchor_case_prefix; eassumption.
  - exists (ret tt). split; [apply grows_ret |].
    rewrite (backward_focus_run H _ _ _ _ _ _ _ _ _ _ A E HA HF).
    rewrite bind_assoc. reflexivity.
Qed.

(** A start point beyond the node: logged, then set all the same. *)
Lemma start_beyond_logged_then_set node p sel (rest : M W unit) (w : W)
      s1 r s2 :
  grows rest ->
  p > Z.of_nat (getNodeLength (self node)) ->
  removeAllRanges H (browser w) = (Normal tt, s1) ->
  createRange H s1 = (Normal r, s2) ->
  exists dom,
    getAnonymizedEditorDOM (innerHTML H) node = Normal dom /\
    let entry := mkLogEntry dom p sel in
    let attempted :=
      [CallRemoveAllRanges; CallCreateRange; CallSetStart (Some node) p] in
    let out :=
      (callHost CallRemoveAllRanges (removeAllRanges H) ;;
       addPointToSelection H node p sel ;;
       rest) w in
    (exists l, logged (snd out) = logged w ++ entry :: l) /\
    (exists c, calls (snd out) = calls w ++ attempted ++ c) /\
    (forall e s3,
        setStart H r (Some node) p s2 = (Throw e, s3) ->
        out = (Throw e,
               mkWorld s3 (logged w ++ [entry]) (calls w ++ attempted))).
Proof.
  intros G Beyond R1 R2.
  destruct (getAnonymizedEditorDOM_normal (innerHTML H) node) as [dom D].
  exists dom. split; [exact D |]. cbv zeta.
  assert (GT : (p >? Z.of_nat (getNodeLength (self node))) = true)
    by (apply Z.gtb_lt; lia).
  unfold addPointToSelection, logIfBeyond, logSelectionStateFailure,
    bind, callHost, lift.
  cbn [browser logged calls]. rewrite R1. cbn [browser logged calls].
  rewrite R2, GT, D. cbn [browser logged calls].
  destruct (setStart H r (Some node) p s2) as [[[] | e] s3];
    cbn [browser logged calls fst snd].
  - destruct (addRange H r s3) as [[[] | e] s4];
      cbn [browser fst snd logged calls].
    + match goal with
      | |- context [rest ?wx] =>
          destruct (G wx) as (l & c & L & C);
          destruct (rest wx) as [[[] | e5] w5]
      end;
        cbn [fst snd logged calls] in *; rewrite L, C; repeat split;
        try (intros e' s3' X; discriminate X).
      * exists l. now rewrite <- app_assoc.
      * exists (CallAddRange :: c). now rewrite <- !app_assoc.
      * exists l. now rewrite <- app_assoc.
      * exists (CallAddRange :: c). now rewrite <- !app_assoc.
    + repeat split.
      * now exists [].
      * exists [CallAddRange]. now rewrite <- !app_assoc.
      * intros e' s3' X. discriminate X.
  - repeat split.
    + now exists [].
    + exists []. now rewrite <- !app_assoc.
    + intros e' s3' X. injection X as -> ->.
      now rewrite <- !app_assoc.
Qed.

(** A focus beyond the node on the range path: nothing is logged, the end
    of the range is set all the same and what that throws is the outcome. *)
Lemma focus_beyond_on_range_path node q sel (w : W) :
  usesExtend H w node = false ->
  logged (snd (addFocusToSelection H node q sel w)) = logged w /\
  forall r s1 e s2,
    getRangeAt H 0%nat (browser w) = (Normal r, s1) ->
    setEnd H r node q s1 = (Throw e, s2) ->
    addFocusToSelection H node q sel w
    = (Throw e,
       mkWorld s2 (logged w)
               (calls w ++ [CallGetRangeAt 0; CallSetEnd node q])).
Proof.
  intros U. split; [now apply focus_fallback_logs_nothing |].
  intros r s1 e s2 R1 R2. rewrite addFocus_unfold, U.
  unfold bind, callHost. rewrite R1. cbn [browser logged calls].
  rewrite R2. now rewrite <- app_assoc.
Qed.

(** C1 (amended): in a call of [setDraftEditorSelection] on a node still
    attached under the editor root, a boundary requested beyond the length
    of its node is never refused, and nothing catches what the host then
    throws.  A start point (the anchor, or the focus of a backward
    selection met first) is logged with the anonymized editor DOM, the
    offset and the selection, and [range.setStart] is still called; a focus
    applied through [selection.extend] is logged likewise and [extend] is
    still called; a focus applied through the first range of the selection
    is not logged at all and [range.setEnd] is still called.  In each case
    the exception of the host call is the outcome of the whole call. *)
Theorem malformed_boundary_attempted_uncaught
        sel node bk ns ne (w : W) aK aO fK fO bw :
  containsNode (editorShadowRoot H (browser w)) (Some node) = true ->
  swapped H sel = (aK, aO, fK, fO, bw) ->
  let run := setDraftEditorSelection H sel node bk ns ne w in
  let restart :=
    callHost CallRemoveAllRanges (removeAllRanges H) ;;
    addPointToSelection H node (aO - ns) sel in
  (* the start point *)
  (forall p s1 r s2,
      (within aK aO bk ns ne = true /\ p = aO - ns) \/
      (bw = true /\ within aK aO bk ns ne = false /\
       within fK fO bk ns ne = true /\ p = fO - ns) ->
      p > Z.of_nat (getNodeLength (self node)) ->
      removeAllRanges H (browser w) = (Normal tt, s1) ->
      createRange H s1 = (Normal r, s2) ->
      exists dom,
        getAnonymizedEditorDOM (innerHTML H) node = Normal dom /\
        let entry := mkLogEntry dom p sel in
        let attempted :=
          [CallRemoveAllRanges; CallCreateRange; CallSetStart (Some node) p] in
        (exists l, logged (snd run) = logged w ++ entry :: l) /\
        (exists c, calls (snd run) = calls w ++ attempted ++ c) /\
        (forall e s3,
            setStart H r (Some node) p s2 = (Throw e, s3) ->
            run = (Throw e,
                   mkWorld s3 (logged w ++ [entry]) (calls w ++ attempted))))
  (* where the focus is applied: alone, after the start point, or as the
     focus point read from the host *)
  /\ (bw = false -> within aK aO bk ns ne = false ->
      within fK fO bk ns ne = true ->
      run = addFocusToSelection H (Some node) (fO - ns) sel w)
  /\ (within aK aO bk ns ne = true -> within fK fO bk ns ne = true ->
      forall w1, restart w = (Normal tt, w1) ->
                 run = addFocusToSelection H (Some node) (fO - ns) sel w1)
  /\ (bw = true -> within aK aO bk ns ne = true ->
      within fK fO bk ns ne = false ->
      forall w1, restart w = (Normal tt, w1) ->
                 run = addFocusToSelection H (focusNode H (browser w))
                                           (Host.focusOffset H (browser w))
                                           sel w1)
  (* a focus beyond its node, wherever it is applied *)
  /\ (forall (w1 : W) n q,
         q > Z.of_nat (getNodeLength (self n)) ->
         (usesExtend H w1 (Some n) = true ->
          exists dom,
            getAnonymizedEditorDOM (innerHTML H) n = Normal dom /\
            addFocusToSelection H (Some n) q sel w1
            = (fst (extend H (Some n) q (browser w1)),
               mkWorld (snd (extend H (Some n) q (browser w1)))
                       (logged w1 ++ [mkLogEntry dom q sel])
                       (calls w1 ++ [CallExtend (Some n) q])))
         /\ (usesExtend H w1 (Some n) = false ->
             logged (snd (addFocusToSelection H (Some n) q sel w1))
             = logged w1 /\
             forall r s1 e s2,
               getRangeAt H 0%nat (browser w1) = (Normal r, s1) ->
               setEnd H r (Some n) q s1 = (Throw e, s2) ->
               addFocusToSelection H (Some n) q sel w1
               = (Throw e,
                  mkWorld s2 (logged w1)
                          (calls w1
                             ++ [CallGetRangeAt 0; CallSetEnd (Some n) q])))).
Proof.
  intros A E. cbv zeta. split; [| split; [| split; [| split]]].
  - intros p s1 r s2 Where Beyond R1 R2.
    destruct (start_point_prefix sel node bk ns ne w _ _ _ _ _ p A E Where)
      as (rest & G & Q).
    rewrite Q.
    exact (start_beyond_logged_then_set node p sel rest w s1 r s2
                                        G Beyond R1 R2).
  - intros -> HA HF.
    exact (focus_only_run H _ _ _ _ _ _ _ _ _ _ A E HA HF).
  - intros HA HF w1 R.
    assert (Q := attached_unfold H _ _ bk ns ne _ _ _ _ _ _ A E).
    rewrite HA, HF in Q. cbn [andb] in Q. rewrite Q.
    rewrite <- bind_assoc. now rewrite (bind_normal _ _ _ _ _ R).
  - intros -> HA HF w1 R.
    rewrite (backward_anchor_run H _ _ _ _ _ _ _ _ _ _ A E HA HF).
    now rewrite (bind_normal _ _ _ _ _ R).
  - intros w1 n q Beyond. split.
    + intros U. now apply focus_beyond_logged_then_extended.
    + intros U. now apply focus_beyond_on_range_path.
Qed.


End WithHost.
End BoundaryFacts.

(* ===================================================================== *)
(** ** Concrete runs for the boundaries and the swap *)
(* ===================================================================== *)

Module BoundaryRuns.
Import BoundaryFacts.

Local Abbreviation W0 := (world0 (Some editorNode)).

(** The forward selection 2..15 in a text of length 11. *)
Local Abbreviation focusBeyond := (mkSelectionState "b1" 2 "b1" 15 false).

(** The focus beyond the text, applied through [selection.extend]: it is
    logged, [extend] is called and its IndexSizeError is the outcome. *)
Lemma malformed_boundary_witness :
  exists dom,
    getAnonymizedEditorDOM refInnerHTML textNode1 = Normal dom /\
    setDraftEditorSelection (refHost true) focusBeyond textNode1 "b1" 0 20 W0
    = (Throw IndexSizeError,
       mkWorld (mkBrowser (Some rootNode) (Some editorNode)
                          [mkRange (Some (textNode1, 2)) (Some (textNode1, 2))]
                          (Some 0%nat) false)
               [mkLogEntry dom 15 focusBeyond]
               [CallRemoveAllRanges; CallCreateRange;
                CallSetStart (Some textNode1) 2; CallAddRange;
                CallExtend (Some textNode1) 15]).
Proof.
  pose proof (malformed_boundary_attempted_uncaught
                (refHost true) focusBeyond textNode1 "b1" 0 20 W0
                "b1" 2 "b1" 15 false eq_refl eq_refl)
    as (_ & _ & Both & _ & Focus).
  specialize (Both eq_refl eq_refl _ eq_refl).
  destruct (Focus (mkWorld
                     (mkBrowser (Some rootNode) (Some editorNode)
                                [mkRange (Some (textNode1, 2))
                                         (Some (textNode1, 2))]
                                (Some 0%nat) false)
                     []
                     [CallRemoveAllRanges; CallCreateRange;
                      CallSetStart (Some textNode1) 2; CallAddRange])
                  textNode1 15 eq_refl) as [Extend _].
  destruct (Extend eq_refl) as (dom & D & Q).
  exists dom. split; [exact D |].
  exact (eq_trans Both Q).
Defined.


End BoundaryRuns.
